(** * UPBGE debugger overlay: shallow embedding of [GUI_FULL.py] and
      [gui_basic.py]

    The two scripts are variants of one inspector window for the Blender
    game engine.  This development embeds the value formatter [truncate],
    the category presenters, the refresh cycle and the playback commands,
    and checks the statements of the design document against them. *)

From Stdlib Require Import ZArith Lia List String Ascii Bool.
From Stdlib Require Import Floats.SpecFloat.
Import ListNotations.
Open Scope Z_scope.

(** ** Python floats

    A Python [float] is an IEEE-754 binary64 datum: [spec_float] with
    [prec = 53] and [emax = 1024].  A finite datum [S754_finite s m e]
    denotes [(-1)^s * m * 2^e]. *)

Definition prec : Z := 53.
Definition emax : Z := 1024.
Definition float : Type := spec_float.

(** [p * 2^(-e)] and [q * 2^e], restricted to the non-negative part of the
    exponent, so that [num2 e p / den2 e q] is the rational [p / (q * 2^e)]
    for every integer [e]. *)
Definition num2 (e p : Z) : Z := p * 2 ^ Z.max 0 (- e).
Definition den2 (e q : Z) : Z := q * 2 ^ Z.max 0 e.

(** Nearest integer to [a / b], ties to the even neighbour ([0 <= a],
    [0 < b]). *)
Definition rne_div (a b : Z) : Z :=
  let q := a / b in
  match 2 * (a mod b) ?= b with
  | Lt => q
  | Gt => q + 1
  | Eq => if Z.even q then q else q + 1
  end.

(** [floor (log2 (p / q))] for positive [p], [q]. *)
Definition flog2 (p q : Z) : Z :=
  let l := Z.log2 p - Z.log2 q in
  if den2 l q <=? num2 l p then l else l - 1.

(** The binary64 datum nearest to [(-1)^s * p / q] (round to nearest, ties
    to even), for positive [p], [q]: the conversion done by [strtod], which
    gives an infinity on overflow and a zero on underflow. *)
Definition nearest_float (s : bool) (p q : Z) : float :=
  let e := Z.max (flog2 p q - (prec - 1)) (emin prec emax) in
  let m := rne_div (num2 e p) (den2 e q) in
  let '(m, e) := if m =? 2 ^ prec then (2 ^ (prec - 1), e + 1) else (m, e) in
  match m with
  | Zpos m' => if e <=? emax - prec then S754_finite s m' e
               else S754_infinity s
  | _ => S754_zero s
  end.

(** [round(x, digits)] on a float, for a non-negative number of digits, as
    CPython's [float.__round__] computes it: the exact value of [x] is
    rounded to [digits] decimals, ties to even (the [dtoa] step), and the
    resulting decimal is converted to the nearest float (the [strtod]
    step).  Zeros, infinities and NaN round to themselves, and so does
    every float when [digits] exceeds [NDIGITS_MAX = 323]. *)
Definition NDIGITS_MAX : Z := 323.

Definition decimal_round (m : positive) (e : Z) (digits : nat) : Z :=
  rne_div (num2 (- e) (Zpos m * 10 ^ Z.of_nat digits)) (den2 (- e) 1).

Definition float_round (x : float) (digits : nat) : float :=
  match x with
  | S754_finite s m e =>
      if NDIGITS_MAX <? Z.of_nat digits then x
      else
        let k := decimal_round m e digits in
        if k =? 0 then S754_zero s
        else nearest_float s k (10 ^ Z.of_nat digits)
  | _ => x
  end.

Definition sign_of (x : float) : option bool :=
  match x with
  | S754_zero s | S754_infinity s | S754_finite s _ _ => Some s
  | S754_nan => None
  end.

(** Exponent and mantissa that [nearest_float] selects before the mantissa
    overflow [2^prec] is renormalised. *)
Definition nf_exp (p q : Z) : Z :=
  Z.max (flog2 p q - (prec - 1)) (emin prec emax).
Definition nf_man (p q : Z) : Z :=
  rne_div (num2 (nf_exp p q) p) (den2 (nf_exp p q) q).

(** [math.degrees]: one binary64 multiplication by [180.0 / pi]. *)
Definition radToDeg : float := S754_finite false 8063664102031864 (-47).
Definition degrees (x : float) : float := SFmul prec emax x radToDeg.

(** ** Python values

    The values an inspected game object can hand to the formatter: the
    scalar types, [str], [list], [tuple], and the two [mathutils] sequence
    types the formatter names.  Iterating a [Vector] or an [Euler] yields
    floats. *)
#[warnings="-register-all"]
Inductive value : Type :=
| VNone
| VBool (b : bool)
| VInt (n : Z)
| VFloat (x : float)
| VStr (s : string)
| VList (l : list value)
| VTuple (l : list value)
| VVector (l : list float)
| VEuler (l : list float).

(** [truncate(value, digits=3)].  [digits] ranges over the non-negative
    precisions; every call site uses the default.

<<
    if isinstance(value, float):
        return round(value, digits)
    elif isinstance(value, (list, mathutils.Vector, mathutils.Euler)):
        return [truncate(v, digits) for v in value]
    return value
>> *)
Fixpoint truncate (v : value) (digits : nat) : value :=
  match v with
  | VFloat x => VFloat (float_round x digits)
  | VList l => VList (map (fun v' => truncate v' digits) l)
  | VVector l | VEuler l =>
      VList (map (fun x => VFloat (float_round x digits)) l)
  | _ => v
  end.

Definition default_digits : nat := 3.

(** The two [isinstance] tests of [truncate]. *)
Definition is_float (v : value) : bool :=
  match v with VFloat _ => true | _ => false end.
Definition is_sequence (v : value) : bool :=
  match v with VList _ | VVector _ | VEuler _ => true | _ => false end.

(** Python truthiness, as [not] evaluates it. *)
Definition truthy (v : value) : bool :=
  match v with
  | VNone => false
  | VBool b => b
  | VInt n => negb (n =? 0)
  | VFloat (S754_zero _) => false
  | VFloat _ => true
  | VStr s => negb (String.eqb s "")
  | VList l | VTuple l => negb (Nat.eqb (List.length l) 0)
  | VVector l | VEuler l => negb (Nat.eqb (List.length l) 0)
  end.

(** ** Strings

    Strings are ASCII; [lower] maps [A-Z] to [a-z], and [contains f s] is
    the operator [f in s]. *)
Definition lower_ascii (c : ascii) : ascii :=
  let n := nat_of_ascii c in
  if (Nat.leb 65 n && Nat.leb n 90)%bool then ascii_of_nat (n + 32) else c.

Fixpoint lower (s : string) : string :=
  match s with
  | EmptyString => EmptyString
  | String c s' => String (lower_ascii c) (lower s')
  end.

Fixpoint contains (needle hay : string) : bool :=
  match hay with
  | EmptyString => prefix needle hay
  | String _ hay' => prefix needle hay || contains needle hay'
  end.

(** Text shown in a label or written to the log: literals, [str(v)] or
    [f"{v}"] of a value, and concatenation. *)
Inductive text : Type :=
| Lit (s : string)
| Str (v : value)
| Cat (a b : text).

(** ** [float(text)]

    The builtin applied to a [str]: surrounding whitespace is stripped,
    then an optional sign is followed by [inf], [infinity] or [nan] in any
    case, or by a decimal number with optional fraction and exponent where
    single underscores may separate digits.  The decimal is converted to
    the nearest float.  On an ASCII string the whitespace stripped is the
    space and the characters 9 to 13. *)
Definition is_space (c : ascii) : bool :=
  let n := nat_of_ascii c in
  ((Nat.leb 9 n && Nat.leb n 13) || Nat.eqb n 32)%bool.

Fixpoint lstrip (l : list ascii) : list ascii :=
  match l with
  | c :: t => if is_space c then lstrip t else l
  | [] => []
  end.

Definition strip (l : list ascii) : list ascii := rev (lstrip (rev (lstrip l))).

Definition digit_of (c : ascii) : option Z :=
  let n := Z.of_nat (nat_of_ascii c) in
  if (48 <=? n) && (n <=? 57) then Some (n - 48) else None.

Fixpoint digits_rest (acc : Z) (cnt : Z) (l : list ascii) : Z * Z * list ascii :=
  match l with
  | c :: t =>
      match digit_of c with
      | Some d => digits_rest (10 * acc + d) (cnt + 1) t
      | None =>
          if Ascii.eqb c "_" then
            match t with
            | c' :: t' =>
                match digit_of c' with
                | Some d => digits_rest (10 * acc + d) (cnt + 1) t'
                | None => (acc, cnt, l)
                end
            | [] => (acc, cnt, l)
            end
          else (acc, cnt, l)
      end
  | [] => (acc, cnt, l)
  end.

(** A digit part: its value, its number of digits, and the rest. *)
Definition digitpart (l : list ascii) : option (Z * Z * list ascii) :=
  match l with
  | c :: t =>
      match digit_of c with
      | Some d => Some (digits_rest d 1 t)
      | None => None
      end
  | [] => None
  end.

Definition parse_exponent (l : list ascii) : option Z :=
  match l with
  | [] => Some 0
  | c :: t =>
      if Ascii.eqb (lower_ascii c) "e" then
        let '(neg, t') :=
          match t with
          | "-"%char :: u => (true, u)
          | "+"%char :: u => (false, u)
          | _ => (false, t)
          end in
        match digitpart t' with
        | Some (x, _, []) => Some (if neg : bool then - x else x)
        | _ => None
        end
      else None
  end.

(** [Some (m, e)] for a decimal literal of value [m * 10^e]. *)
Definition parse_decimal (l : list ascii) : option (Z * Z) :=
  match digitpart l with
  | Some (a, _, "."%char :: r) =>
      match digitpart r with
      | Some (b, nb, r') =>
          option_map (fun x => (a * 10 ^ nb + b, x - nb)) (parse_exponent r')
      | None => option_map (fun x => (a, x)) (parse_exponent r)
      end
  | Some (a, _, r) => option_map (fun x => (a, x)) (parse_exponent r)
  | None =>
      match l with
      | "."%char :: r =>
          match digitpart r with
          | Some (b, nb, r') =>
              option_map (fun x => (b, x - nb)) (parse_exponent r')
          | None => None
          end
      | _ => None
      end
  end.

(** ** Exceptions

    [exn] ranges over instances of [Exception]; a handler [except C] takes
    the exceptions of class [C], and [except Exception] takes them all. *)
Inductive exn_class : Type :=
| ValueError | NameError | KeyError | AttributeError
| TypeError | SystemError | RuntimeError.

Record exn : Type := mk_exn { exn_cls : exn_class; exn_msg : string }.

Inductive result (A : Type) : Type :=
| Ok (a : A)
| Raise (e : exn).
Arguments Ok {A} a.
Arguments Raise {A} e.

Definition is_ValueError (e : exn) : bool :=
  match exn_cls e with ValueError => true | _ => false end.
Definition is_Exception (e : exn) : bool := true.

Definition float_of_string (s : string) : result float :=
  let l := strip (list_ascii_of_string s) in
  let '(sg, body) :=
    match l with
    | "-"%char :: t => (true, t)
    | "+"%char :: t => (false, t)
    | _ => (false, l)
    end in
  let low := string_of_list_ascii (map lower_ascii body) in
  if String.eqb low "inf" || String.eqb low "infinity" then
    Ok (S754_infinity sg)
  else if String.eqb low "nan" then Ok S754_nan
  else
    match parse_decimal body with
    | Some (m, e) =>
        Ok (if m =? 0 then S754_zero sg
            else nearest_float sg (m * 10 ^ Z.max 0 e) (10 ^ Z.max 0 (- e)))
    | None => Raise (mk_exn ValueError "could not convert string to float")
    end.

(** ** The game engine as seen by the inspector

    Reading an attribute of a live object can raise (the engine frees
    objects behind the script's back), so the attributes the presenters read
    are [result]s.  [meshes] is [None] when [hasattr(obj, 'meshes')] fails;
    a mesh is given by the names of its materials. *)
Definition vec3 : Type := (float * float * float)%type.

Record KX_GameObject : Type := {
  name : string;
  getPhysicsId : result Z;
  mass : result value;
  linearVelocity : result value;
  angularVelocity : result value;
  getPropertyNames : result (list string);
  getitem : string -> result value;
  worldPosition : result vec3;
  worldOrientation_to_euler : result vec3;
  worldScale : result vec3;
  meshes : option (list (list string))
}.

(** [bge.logic.getCurrentScene().objects], or the exception the call
    raises. *)
Record World : Type := { getCurrentScene : result (list KX_GameObject) }.

(** [scene.objects.get(name)]: the first object of that name, or [None]. *)
Definition objects_get (objects : list KX_GameObject) (n : string)
  : option KX_GameObject :=
  find (fun o => String.eqb (name o) n) objects.

(** Calls into [bge.logic] and [bge.render] that change the simulation. *)
Inductive bge_call : Type :=
| setLogicTicRate (fps : value)
| setTimeScale (speed : value)
| nextFrame
| showMouse (visible : value).

(** ** The inspector *)

(** The six tabs, in the order [__init__] adds them; [tabs.widget(i)] is
    the tab of index [i]. *)
Inductive tab : Type :=
| Physics | Game | Transform | Materials | Animations | LogicSensors.

Definition tab_eqb (a b : tab) : bool :=
  match a, b with
  | Physics, Physics | Game, Game | Transform, Transform
  | Materials, Materials | Animations, Animations
  | LogicSensors, LogicSensors => true
  | _, _ => false
  end.

(** A row of a form layout: [addRow(label, QLabel(field))] or
    [addRow(QLabel(field))]. *)
Record Row : Type := { row_label : option string; row_field : text }.

(** A button of [self.object_list_layout].  [visible] is [isVisible()]:
    only [setVisible] shows or hides such a button. *)
Record QPushButton : Type := { button_text : string; visible : bool }.

(** [tabs t] is the content of the form layout of tab [t]; its first
    [deleted_later t] rows are widgets on which [deleteLater()] was called
    while they stayed in the layout. *)
Record DebuggerWindow : Type := {
  selected_object : option string;
  object_list_layout : list QPushButton;
  tabs : tab -> list Row;
  deleted_later : tab -> nat;
  search_bar : string
}.

(** What an observer sees of one callback.  [Raised] is ghost: it records
    that an exception was raised, whether or not a handler took it. *)
Inductive event : Type :=
| Raised (e : exn)
| Dialog (message : text) (exception : option exn)
| LogError (message : text) (exception : option exn)
| LogInfo (message : text)
| Stdout (message : text).

(** The interpreter state the callbacks run in: the window, the module
    global [mouse_visible] (unbound until something assigns it), the calls
    made to the engine and the trace of events. *)
Record Process : Type := {
  window : DebuggerWindow;
  mouse_visible : option value;
  bge : list bge_call;
  events : list event
}.

Definition set_window (f : DebuggerWindow -> DebuggerWindow) (p : Process)
  : Process :=
  {| window := f (window p); mouse_visible := mouse_visible p;
     bge := bge p; events := events p |}.

Definition set_mouse_visible (v : option value) (p : Process) : Process :=
  {| window := window p; mouse_visible := v;
     bge := bge p; events := events p |}.

Definition add_call (c : bge_call) (p : Process) : Process :=
  {| window := window p; mouse_visible := mouse_visible p;
     bge := bge p ++ [c]; events := events p |}.

Definition add_event (ev : event) (p : Process) : Process :=
  {| window := window p; mouse_visible := mouse_visible p;
     bge := bge p; events := events p ++ [ev] |}.

Definition set_selected_object (n : option string) (w : DebuggerWindow)
  : DebuggerWindow :=
  {| selected_object := n; object_list_layout := object_list_layout w;
     tabs := tabs w; deleted_later := deleted_later w;
     search_bar := search_bar w |}.

Definition set_object_list_layout (l : list QPushButton) (w : DebuggerWindow)
  : DebuggerWindow :=
  {| selected_object := selected_object w; object_list_layout := l;
     tabs := tabs w; deleted_later := deleted_later w;
     search_bar := search_bar w |}.

Definition set_tabs (t : tab -> list Row) (w : DebuggerWindow)
  : DebuggerWindow :=
  {| selected_object := selected_object w;
     object_list_layout := object_list_layout w;
     tabs := t; deleted_later := deleted_later w;
     search_bar := search_bar w |}.

Definition set_deleted_later (d : tab -> nat) (w : DebuggerWindow)
  : DebuggerWindow :=
  {| selected_object := selected_object w;
     object_list_layout := object_list_layout w;
     tabs := tabs w; deleted_later := d;
     search_bar := search_bar w |}.

Definition set_search_bar (s : string) (w : DebuggerWindow) : DebuggerWindow :=
  {| selected_object := selected_object w;
     object_list_layout := object_list_layout w;
     tabs := tabs w; deleted_later := deleted_later w;
     search_bar := s |}.

(** ** Statements: state and exceptions

    A statement maps the state to a result and the state it leaves; a
    raised exception keeps the mutations made before it. *)
Definition M (A : Type) : Type := Process -> result A * Process.

Definition ret {A} (a : A) : M A := fun p => (Ok a, p).

Definition bind {A B} (c : M A) (k : A -> M B) : M B :=
  fun p =>
    match c p with
    | (Ok a, p') => k a p'
    | (Raise e, p') => (Raise e, p')
    end.

Definition raise {A} (e : exn) : M A := fun p => (Raise e, add_event (Raised e) p).

Definition lift {A} (r : result A) : M A :=
  match r with
  | Ok a => ret a
  | Raise e => raise e
  end.

Definition modify (f : Process -> Process) : M unit := fun p => (Ok tt, f p).

Definition gets {A} (f : Process -> A) : M A := fun p => (Ok (f p), p).

(** [try: c  except C as e: h e], where [handles] recognises class [C]. *)
Definition try_except {A} (c : M A) (handles : exn -> bool) (h : exn -> M A)
  : M A :=
  fun p =>
    match c p with
    | (Ok a, p') => (Ok a, p')
    | (Raise e, p') => if handles e then h e p' else (Raise e, p')
    end.

Declare Scope stmt_scope.
Delimit Scope stmt_scope with stmt.
Notation "x <- c ;; k" := (bind c (fun x => k))
  (at level 61, c at next level, right associativity) : stmt_scope.
Notation "c ;; k" := (bind c (fun _ => k))
  (at level 61, right associativity) : stmt_scope.
Notation "' pat <- c ;; k" := (bind c (fun x => match x with pat => k end))
  (at level 61, pat pattern, c at next level, right associativity)
  : stmt_scope.
Open Scope stmt_scope.

Fixpoint for_each {A} (l : list A) (body : A -> M unit) : M unit :=
  match l with
  | [] => ret tt
  | a :: l' => body a ;; for_each l' body
  end.

Definition run {A} (c : M A) (p : Process) : Process := snd (c p).

(** ** Widgets *)

Definition addRow (t : tab) (r : Row) : M unit :=
  modify (set_window (fun w =>
    set_tabs (fun t' => if tab_eqb t' t then tabs w t' ++ [r] else tabs w t') w)).

(** [clear_layout] on every tab ([GUI_FULL.py]): [takeAt] takes each row
    out of its layout before the widget is handed to [deleteLater]. *)
Definition clear_tabs : M unit :=
  modify (set_window (fun w =>
    set_deleted_later (fun _ => O) (set_tabs (fun _ => []) w))).

(** The clearing loop of [gui_basic.py]: [deleteLater()] on the widget of
    every row; the rows stay in their layouts. *)
Definition delete_tabs_later : M unit :=
  modify (set_window (fun w =>
    set_deleted_later (fun t => List.length (tabs w t)) w)).

Definition addWidget (b : QPushButton) : M unit :=
  modify (set_window (fun w =>
    set_object_list_layout (object_list_layout w ++ [b]) w)).

Definition emit (ev : event) : M unit := modify (add_event ev).

Definition call (c : bge_call) : M unit := modify (add_call c).

Definition labelled (l : string) (f : text) : Row :=
  {| row_label := Some l; row_field := f |}.
Definition unlabelled (f : text) : Row :=
  {| row_label := None; row_field := f |}.

(** The entries shown: the texts of the visible buttons of
    [self.object_list_layout]. *)
Definition displayed (p : Process) : list string :=
  map button_text (filter visible (object_list_layout (window p))).

(** [text.lower() in button.text().lower()]. *)
Definition matches (filter_text identifier : string) : bool :=
  contains (lower filter_text) (lower identifier).

(** ** Category presenters (the same text in both scripts) *)

Definition populate_physics_tab (obj : KX_GameObject) : M unit :=
  id <- lift (getPhysicsId obj) ;;
  if negb (id =? 0) then
    m <- lift (mass obj) ;;
    addRow Physics (labelled "Mass:" (Str (truncate m default_digits))) ;;
    lv <- lift (linearVelocity obj) ;;
    addRow Physics
      (labelled "Linear Velocity:" (Str (truncate lv default_digits))) ;;
    av <- lift (angularVelocity obj) ;;
    addRow Physics
      (labelled "Angular Velocity:" (Str (truncate av default_digits)))
  else
    addRow Physics (unlabelled (Lit "No physics properties available.")).

Definition populate_game_tab (obj : KX_GameObject) : M unit :=
  keys <- lift (getPropertyNames obj) ;;
  for_each keys (fun key =>
    v <- lift (getitem obj key) ;;
    addRow Game
      (unlabelled
         (Cat (Lit key) (Cat (Lit ": ") (Str (truncate v default_digits)))))).

Definition xyz (x y z : float) : text :=
  Cat (Lit "X: ") (Cat (Str (truncate (VFloat x) default_digits))
  (Cat (Lit ", Y: ") (Cat (Str (truncate (VFloat y) default_digits))
  (Cat (Lit ", Z: ") (Str (truncate (VFloat z) default_digits)))))).

Definition populate_transform_tab (obj : KX_GameObject) : M unit :=
  '(px, py, pz) <- lift (worldPosition obj) ;;
  addRow Transform (labelled "Position:" (xyz px py pz)) ;;
  '(rx, ry, rz) <- lift (worldOrientation_to_euler obj) ;;
  addRow Transform
    (labelled "Rotation:" (xyz (degrees rx) (degrees ry) (degrees rz))) ;;
  '(sx, sy, sz) <- lift (worldScale obj) ;;
  addRow Transform (labelled "Scale:" (xyz sx sy sz)).

Definition populate_materials_tab (obj : KX_GameObject) : M unit :=
  match meshes obj with
  | Some (materials :: _) =>
      addRow Materials (labelled "Materials:" (Lit (concat ", " materials)))
  | _ => addRow Materials (unlabelled (Lit "No materials available."))
  end.

Definition populate_animations_tab (obj : KX_GameObject) : M unit :=
  addRow Animations (unlabelled (Lit "No animation data available.")).

Definition populate_logic_sensors_tab (obj : KX_GameObject) : M unit :=
  addRow LogicSensors (unlabelled (Lit "No logic sensors available.")).

Definition populate_tabs (obj : KX_GameObject) : M unit :=
  populate_physics_tab obj ;;
  populate_game_tab obj ;;
  populate_transform_tab obj ;;
  populate_materials_tab obj ;;
  populate_animations_tab obj ;;
  populate_logic_sensors_tab obj.

(** [not self.selected_object]: no selection, or the empty name. *)
Definition selection (p : Process) : option string :=
  match selected_object (window p) with
  | Some n => if String.eqb n "" then None else Some n
  | None => None
  end.

(** [QPushButton(obj.name)] as [update_object_list] leaves it.  The layout
    the button is added to is never installed on the list widget
    ([setLayout] is refused on a widget that already has a layout), so the
    button has no parent and nothing shows it. *)
Definition new_button (obj : KX_GameObject) : QPushButton :=
  {| button_text := name obj; visible := false |}.

Definition set_visibility (filter_text : string) (b : QPushButton)
  : QPushButton :=
  {| button_text := button_text b;
     visible := matches filter_text (button_text b) |}.

Definition fresh_window : DebuggerWindow :=
  {| selected_object := None; object_list_layout := [];
     tabs := fun _ => []; deleted_later := fun _ => O; search_bar := "" |}.

Definition fresh_process : Process :=
  {| window := fresh_window; mouse_visible := None; bge := []; events := [] |}.

(** ** [GUI_FULL.py] *)
Module Full.

Definition show_error (message : text) (exception : option exn) : M unit :=
  emit (Dialog message exception) ;;
  emit (LogError message exception).

Definition update_object_list (w : World) : M unit :=
  try_except
    (objects <- lift (getCurrentScene w) ;;
     modify (set_window (set_object_list_layout [])) ;;
     for_each objects (fun obj => addWidget (new_button obj)))
    is_Exception
    (fun e => show_error (Lit "Error updating object list") (Some e)).

Definition filter_objects (filter_text : string) : M unit :=
  try_except
    (modify (set_window (fun w =>
       set_object_list_layout
         (map (set_visibility filter_text) (object_list_layout w)) w)))
    is_Exception
    (fun e => show_error (Lit "Error filtering objects") (Some e)).

Definition update_properties_tabs (w : World) : M unit :=
  sel <- gets selection ;;
  match sel with
  | None => ret tt
  | Some n =>
      try_except
        (objects <- lift (getCurrentScene w) ;;
         match objects_get objects n with
         | None => ret tt
         | Some obj => clear_tabs ;; populate_tabs obj
         end)
        is_Exception
        (fun e =>
           show_error
             (Cat (Lit "Error updating properties for object ")
                  (Str (VStr n)))
             (Some e))
  end.

Definition select_object (w : World) (object_name : string) : M unit :=
  modify (set_window (set_selected_object (Some object_name))) ;;
  emit (LogInfo (Cat (Lit "Selected object: ") (Str (VStr object_name)))) ;;
  update_properties_tabs w.

Definition refresh_properties (w : World) : M unit :=
  try_except
    (update_object_list w ;; update_properties_tabs w)
    is_Exception
    (fun e => show_error (Lit "Error refreshing properties") (Some e)).

Definition set_fps (fps_input : string) : M unit :=
  try_except
    (fps <- lift (float_of_string fps_input) ;;
     call (setLogicTicRate (VFloat fps)) ;;
     emit (LogInfo (Cat (Lit "FPS set to ") (Str (VFloat fps)))))
    is_ValueError
    (fun e => show_error (Lit "Invalid FPS value.") (Some e)).

Definition set_game_speed (speed_input : string) : M unit :=
  try_except
    (speed <- lift (float_of_string speed_input) ;;
     call (setTimeScale (VFloat speed)) ;;
     emit (LogInfo (Cat (Lit "Game speed set to ") (Str (VFloat speed)))))
    is_ValueError
    (fun e => show_error (Lit "Invalid game speed value.") (Some e)).

Definition pause_game : M unit :=
  try_except
    (call (setTimeScale (VInt 0)) ;; emit (LogInfo (Lit "Game paused.")))
    is_Exception
    (fun e => show_error (Lit "Error pausing the game.") (Some e)).

Definition play_game : M unit :=
  try_except
    (call (setTimeScale (VInt 1)) ;; emit (LogInfo (Lit "Game resumed.")))
    is_Exception
    (fun e => show_error (Lit "Error resuming the game.") (Some e)).

Definition step_frame : M unit :=
  try_except
    (call nextFrame ;; emit (LogInfo (Lit "Stepped one frame forward.")))
    is_Exception
    (fun e => show_error (Lit "Error stepping the frame.") (Some e)).

(** [mouse_visible = not mouse_visible] reads the module global, which
    raises [NameError] while the name is unbound. *)
Definition toggle_mouse : M unit :=
  try_except
    (g <- gets mouse_visible ;;
     v <- match g with
          | Some v => ret v
          | None => raise (mk_exn NameError "name 'mouse_visible' is not defined")
          end ;;
     modify (set_mouse_visible (Some (VBool (negb (truthy v))))) ;;
     call (showMouse (VBool (negb (truthy v)))) ;;
     emit (LogInfo (Cat (Lit "Mouse visibility set to ")
                        (Str (VBool (negb (truthy v)))))))
    is_Exception
    (fun e => show_error (Lit "Error toggling mouse visibility.") (Some e)).

(** A placeholder: the handler only writes a log record. *)
Definition toggle_physics_visualization : M unit :=
  try_except
    (emit (LogInfo (Lit "Physics visualization toggled (not implemented).")))
    is_Exception
    (fun e =>
       show_error (Lit "Error toggling physics visualization.") (Some e)).

(** The search bar's [textChanged] signal: the bar holds the new text and
    [filter_objects] runs on it. *)
Definition edit_search (filter_text : string) : M unit :=
  modify (set_window (set_search_bar filter_text)) ;;
  filter_objects filter_text.

(** [DebuggerWindow()]: the constructor ends with [update_object_list]. *)
Definition init (w : World) : Process := run (update_object_list w) fresh_process.

End Full.

(** ** [gui_basic.py] *)
Module Basic.

Definition update_object_list (w : World) : M unit :=
  objects <- lift (getCurrentScene w) ;;
  modify (set_window (set_object_list_layout [])) ;;
  for_each objects (fun obj => addWidget (new_button obj)).

Definition filter_objects (filter_text : string) : M unit :=
  modify (set_window (fun w =>
    set_object_list_layout
      (map (set_visibility filter_text) (object_list_layout w)) w)).

Definition update_properties_tabs (w : World) : M unit :=
  sel <- gets selection ;;
  match sel with
  | None => ret tt
  | Some n =>
      objects <- lift (getCurrentScene w) ;;
      match objects_get objects n with
      | None => ret tt
      | Some obj => delete_tabs_later ;; populate_tabs obj
      end
  end.

Definition select_object (w : World) (object_name : string) : M unit :=
  modify (set_window (set_selected_object (Some object_name))) ;;
  update_properties_tabs w.

Definition refresh_properties (w : World) : M unit :=
  update_object_list w ;; update_properties_tabs w.

Definition set_fps (fps_input : string) : M unit :=
  try_except
    (fps <- lift (float_of_string fps_input) ;;
     call (setLogicTicRate (VFloat fps)) ;;
     emit (Stdout (Cat (Lit "FPS set to ") (Str (VFloat fps)))))
    is_ValueError
    (fun _ => emit (Stdout (Lit "Invalid FPS value."))).

Definition set_game_speed (speed_input : string) : M unit :=
  try_except
    (speed <- lift (float_of_string speed_input) ;;
     call (setTimeScale (VFloat speed)) ;;
     emit (Stdout (Cat (Lit "Game speed set to ") (Str (VFloat speed)))))
    is_ValueError
    (fun _ => emit (Stdout (Lit "Invalid game speed value."))).

Definition pause_game : M unit :=
  call (setTimeScale (VInt 0)) ;; emit (Stdout (Lit "Game paused.")).

Definition play_game : M unit :=
  call (setTimeScale (VInt 1)) ;; emit (Stdout (Lit "Game resumed.")).

Definition step_frame : M unit :=
  call nextFrame ;; emit (Stdout (Lit "Stepped one frame forward.")).

Definition toggle_mouse : M unit :=
  g <- gets mouse_visible ;;
  v <- match g with
       | Some v => ret v
       | None => raise (mk_exn NameError "name 'mouse_visible' is not defined")
       end ;;
  modify (set_mouse_visible (Some (VBool (negb (truthy v))))) ;;
  call (showMouse (VBool (negb (truthy v)))) ;;
  emit (Stdout (Cat (Lit "Mouse visibility set to ")
                   (Str (VBool (negb (truthy v)))))).

Definition toggle_physics_visualization : M unit :=
  emit (Stdout (Lit "Physics visualization toggled (not implemented).")).

Definition edit_search (filter_text : string) : M unit :=
  modify (set_window (set_search_bar filter_text)) ;;
  filter_objects filter_text.

Definition init (w : World) : Process := run (update_object_list w) fresh_process.

End Basic.

(** ** Statements of the design document, and what they are measured on *)

(** The exceptions raised, and those handed to [show_error], in a trace. *)
Fixpoint raised_of (evs : list event) : list exn :=
  match evs with
  | Raised e :: evs' => e :: raised_of evs'
  | _ :: evs' => raised_of evs'
  | [] => []
  end.

Fixpoint reported_of (evs : list event) : list exn :=
  match evs with
  | Dialog _ (Some e) :: evs' => e :: reported_of evs'
  | _ :: evs' => reported_of evs'
  | [] => []
  end.

(** A statement only extends the trace, and every exception raised in it is
    reported once, except the one it ends with if it ends by raising. *)
Definition contained {A} (c : M A) : Prop :=
  forall p, exists new,
    events (snd (c p)) = events p ++ new /\
    match fst (c p) with
    | Ok _ => raised_of new = reported_of new
    | Raise e => raised_of new = reported_of new ++ [e]
    end.

Definition never_raises {A} (c : M A) : Prop :=
  forall p, exists a, fst (c p) = Ok a.

(** A statement leaves an observation of the state as it found it. *)
Definition preserves {X A} (f : Process -> X) (c : M A) : Prop :=
  forall p, f (snd (c p)) = f p.

Definition ignores_events {X} (f : Process -> X) : Prop :=
  forall ev p, f (add_event ev p) = f p.

(** Observations of the state. *)
Definition selected_of (p : Process) : option string :=
  selected_object (window p).
Definition tabs_of (p : Process) : tab -> list Row := tabs (window p).
Definition layout_of (p : Process) : list QPushButton :=
  object_list_layout (window p).

(** The entity a refresh tick resolves the selection to, if any. *)
Definition presented (w : World) (p : Process) : option KX_GameObject :=
  match selection p with
  | Some n =>
      match getCurrentScene w with
      | Ok objects => objects_get objects n
      | Raise _ => None
      end
  | None => None
  end.

(** Section 3 and 8: reconciliation drops a selection that left the
    snapshot and keeps one that is still in it. *)
Definition reconciles_selection (refresh : World -> M unit) : Prop :=
  forall w objects p n,
    getCurrentScene w = Ok objects ->
    selected_object (window p) = Some n ->
    (objects_get objects n = None ->
     selected_object (window (run (refresh w) p)) = None) /\
    (objects_get objects n <> None ->
     selected_object (window (run (refresh w) p)) = Some n).

(** Section 4.4: a tick that resolves no entity clears every tab. *)
Definition clears_rows_without_selection (refresh : World -> M unit) : Prop :=
  forall w p t,
    presented w p = None -> tabs (window (run (refresh w) p)) t = [].

(** Section 4.2 and 8: after a tick the object list shows the identifiers
    of the snapshot that match the text of the search bar, in order. *)
Definition displays_matching (refresh : World -> M unit) : Prop :=
  forall w objects p,
    getCurrentScene w = Ok objects ->
    displayed (run (refresh w) p) =
    filter (matches (search_bar (window p))) (map name objects).

(** Section 4.4 and 7: the tick ends normally and every exception raised
    in it was reported once. *)
Definition tick_contained (refresh : World -> M unit) : Prop :=
  forall w p,
    fst (refresh w p) = Ok tt /\
    exists new,
      events (run (refresh w) p) = events p ++ new /\
      reported_of new = raised_of new.

(** Section 4.5: a toggle leaves the flag defined and forwards it. *)
Definition toggles_and_forwards (toggle : M unit) : Prop :=
  forall p, exists b,
    mouse_visible (run toggle p) = Some (VBool b) /\
    bge (run toggle p) = bge p ++ [showMouse (VBool b)].

(** The rows the Physics presenter can add, and the report of [set_fps]. *)
Definition no_physics_row : Row :=
  unlabelled (Lit "No physics properties available.").

Definition physics_rows (m lv av : value) : list Row :=
  [labelled "Mass:" (Str (truncate m default_digits));
   labelled "Linear Velocity:" (Str (truncate lv default_digits));
   labelled "Angular Velocity:" (Str (truncate av default_digits))].

Definition invalid_fps : text := Lit "Invalid FPS value.".

(** ** Sample scenes *)

Definition zero3 : vec3 := (S754_zero false, S754_zero false, S754_zero false).

(** [2.675], [0.12345] and [1.5] as binary64 data. *)
Definition f_2_675 : float := S754_finite false 6023564501608038 (-51).
Definition f_0_12345 : float := S754_finite false 8895509983982204 (-56).
Definition f_0_123 : float := S754_finite false 8863084066665136 (-56).
Definition f_1_5 : float := S754_finite false 6755399441055744 (-52).

(** A rigid body named [A] with two game properties. *)
Definition objA : KX_GameObject :=
  {| name := "A";
     getPhysicsId := Ok 7;
     mass := Ok (VFloat f_1_5);
     linearVelocity := Ok (VVector [f_0_12345; S754_zero false; f_2_675]);
     angularVelocity := Ok (VVector [S754_zero false; S754_zero true; f_1_5]);
     getPropertyNames := Ok ["health"%string; "tag"%string];
     getitem := fun key =>
       if String.eqb key "health" then Ok (VInt 42)
       else if String.eqb key "tag" then Ok (VStr "boss")
       else Raise (mk_exn KeyError key);
     worldPosition := Ok zero3;
     worldOrientation_to_euler := Ok zero3;
     worldScale := Ok zero3;
     meshes := Some [["Metal"%string]] |}.

(** An object named [B] without physics, properties or meshes. *)
Definition objB : KX_GameObject :=
  {| name := "B";
     getPhysicsId := Ok 0;
     mass := Ok (VFloat (S754_zero false));
     linearVelocity := Ok (VVector []);
     angularVelocity := Ok (VVector []);
     getPropertyNames := Ok [];
     getitem := fun key => Raise (mk_exn KeyError key);
     worldPosition := Ok zero3;
     worldOrientation_to_euler := Ok zero3;
     worldScale := Ok zero3;
     meshes := None |}.

Definition world_AB : World := {| getCurrentScene := Ok [objA; objB] |}.
Definition world_B : World := {| getCurrentScene := Ok [objB] |}.

(** The engine has no current scene. *)
Definition no_scene : exn := mk_exn SystemError "no current scene".
Definition world_down : World := {| getCurrentScene := Raise no_scene |}.

(** [A] was clicked while the scene held [A] and [B]. *)
Definition selected_A_full : Process :=
  run (Full.select_object world_AB "A") (Full.init world_AB).
Definition selected_A_basic : Process :=
  run (Basic.select_object world_AB "A") (Basic.init world_AB).

(** The search bar was set to [a] while the scene held [A] and [B]. *)
Definition searching_a_full : Process :=
  run (Full.edit_search "a") (Full.init world_AB).
Definition searching_a_basic : Process :=
  run (Basic.edit_search "a") (Basic.init world_AB).

(** A process in which something bound the global [mouse_visible]. *)
Definition mouse_bound (v : value) : Process :=
  set_mouse_visible (Some v) fresh_process.

(** ** Notions for the rest of the callbacks *)

(** A statement ends normally and appends the rows [R t] to each tab [t]. *)
Definition appends (c : M unit) (R : tab -> list Row) : Prop :=
  forall p,
    fst (c p) = Ok tt /\
    forall t, tabs_of (snd (c p)) t = tabs_of p t ++ R t.

Definition on_tab (X : tab) (rows : list Row) : tab -> list Row :=
  fun t => if tab_eqb t X then rows else [].

(** The result of a statement does not depend on the state it starts
    from, and all it does to the tabs is to add rows after those it finds,
    the same rows from every state. *)
Definition adds_rows {A} (c : M A) : Prop :=
  exists (r : result A) (R : tab -> list Row),
    forall p,
      fst (c p) = r /\
      forall t, tabs_of (snd (c p)) t = tabs_of p t ++ R t.

(** The result of a statement and the rows it leaves depend on nothing but
    the rows it finds. *)
Definition tabs_only {A} (c : M A) : Prop :=
  forall p p',
    tabs_of p = tabs_of p' ->
    fst (c p) = fst (c p') /\ tabs_of (snd (c p)) = tabs_of (snd (c p')).

(** The rows the six presenters leave for an entity when they start from
    empty tabs (all of them, or those added before a read raised). *)
Definition presenter_rows (obj : KX_GameObject) : tab -> list Row :=
  tabs_of (run (populate_tabs obj) fresh_process).

Definition game_row (key : string) (v : value) : Row :=
  unlabelled (Cat (Lit key) (Cat (Lit ": ") (Str (truncate v default_digits)))).

Definition transform_rows (pos rot scl : vec3) : list Row :=
  let '(px, py, pz) := pos in
  let '(rx, ry, rz) := rot in
  let '(sx, sy, sz) := scl in
  [labelled "Position:" (xyz px py pz);
   labelled "Rotation:" (xyz (degrees rx) (degrees ry) (degrees rz));
   labelled "Scale:" (xyz sx sy sz)].

Definition materials_row (obj : KX_GameObject) : Row :=
  match meshes obj with
  | Some (materials :: _) =>
      labelled "Materials:" (Lit (concat ", " materials))
  | _ => unlabelled (Lit "No materials available.")
  end.

Definition animations_row : Row :=
  unlabelled (Lit "No animation data available.").
Definition logic_sensors_row : Row :=
  unlabelled (Lit "No logic sensors available.").

(** No float occurs where [truncate] would reach it: tuples are opaque to
    it, a [Vector] or [Euler] is always rebuilt. *)
Fixpoint float_free (v : value) : bool :=
  match v with
  | VFloat _ | VVector _ | VEuler _ => false
  | VList l => forallb float_free l
  | _ => true
  end.

(** [n] runs of a callback, one after the other. *)
Fixpoint times (n : nat) (c : M unit) : M unit :=
  match n with
  | O => ret tt
  | S n' => c ;; times n' c
  end.

Definition unbound_mouse_visible : exn :=
  mk_exn NameError "name 'mouse_visible' is not defined".

(** An object whose property [gone] can no longer be read. *)
Definition objC : KX_GameObject :=
  {| name := "C";
     getPhysicsId := Ok 0;
     mass := Ok VNone;
     linearVelocity := Ok VNone;
     angularVelocity := Ok VNone;
     getPropertyNames := Ok ["hp"%string; "gone"%string; "tag"%string];
     getitem := fun key =>
       if String.eqb key "hp" then Ok (VInt 3)
       else Raise (mk_exn KeyError key);
     worldPosition := Ok zero3;
     worldOrientation_to_euler := Ok zero3;
     worldScale := Ok zero3;
     meshes := None |}.

(** [A] after the engine freed it: its physics id cannot be read. *)
Definition objA_freed : KX_GameObject :=
  {| name := "A";
     getPhysicsId := Raise (mk_exn SystemError "object freed");
     mass := mass objA;
     linearVelocity := linearVelocity objA;
     angularVelocity := angularVelocity objA;
     getPropertyNames := getPropertyNames objA;
     getitem := getitem objA;
     worldPosition := worldPosition objA;
     worldOrientation_to_euler := worldOrientation_to_euler objA;
     worldScale := worldScale objA;
     meshes := meshes objA |}.

Definition world_freed : World := {| getCurrentScene := Ok [objA_freed] |}.

(** The window a refresh tick of [GUI_FULL.py] leaves when the scene holds
    [objects]. *)
Definition window_after_tick (w : World) objects (p : Process)
  : DebuggerWindow :=
  let listed := set_object_list_layout (map new_button objects) (window p) in
  match presented w p with
  | Some obj =>
      set_deleted_later (fun _ => O) (set_tabs (presenter_rows obj) listed)
  | None => listed
  end.

(** * Properties *)

(** ** Rounding quotients to the nearest integer *)


Section RneDiv.
Variables a b : Z.
Hypothesis Hb : 0 < b.

Lemma rne_div_bounds : 2 * rne_div a b * b - b <= 2 * a <= 2 * rne_div a b * b + b.
Proof.
  unfold rne_div.
  pose proof (Z.div_mod a b ltac:(lia)) as E.
  pose proof (Z.mod_pos_bound a b Hb) as R.
  destruct (Z.compare_spec (2 * (a mod b)) b) as [C|C|C];
    [destruct (Z.even (a / b))| |]; nia.
Qed.

Lemma rne_div_unique (k : Z) :
  2 * k * b - b < 2 * a < 2 * k * b + b -> rne_div a b = k.
Proof.
  intros H. unfold rne_div.
  pose proof (Z.div_mod a b ltac:(lia)) as E.
  pose proof (Z.mod_pos_bound a b Hb) as R.
  assert (a / b <= k - 2 \/ a / b = k - 1 \/ a / b = k \/ k + 1 <= a / b)
    as [D|[D|[D|D]]] by lia;
    destruct (Z.compare_spec (2 * (a mod b)) b) as [C|C|C];
    try (exfalso; nia); try destruct (Z.even (a / b)); nia.
Qed.

Lemma rne_div_ge (l : Z) : l * b <= a -> l <= rne_div a b.
Proof.
  intros H. unfold rne_div.
  pose proof (Z.div_mod a b ltac:(lia)) as E.
  pose proof (Z.mod_pos_bound a b Hb) as R.
  assert (l <= a / b) by nia.
  destruct (2 * (a mod b) ?= b); [destruct (Z.even (a / b))| |]; lia.
Qed.

Lemma rne_div_le (u : Z) : a <= u * b -> rne_div a b <= u.
Proof.
  intros H. unfold rne_div.
  pose proof (Z.div_mod a b ltac:(lia)) as E.
  pose proof (Z.mod_pos_bound a b Hb) as R.
  destruct (Z.compare_spec (2 * (a mod b)) b) as [C|C|C];
    [destruct (Z.even (a / b))| |]; nia.
Qed.
End RneDiv.


Lemma num2_neg e p : e <= 0 -> num2 e p = p * 2 ^ (- e).
Proof. intros. unfold num2. rewrite Z.max_r by lia. reflexivity. Qed.
Lemma num2_pos e p : 0 <= e -> num2 e p = p.
Proof. intros. unfold num2. rewrite Z.max_l by lia. simpl. lia. Qed.
Lemma den2_neg e q : e <= 0 -> den2 e q = q.
Proof. intros. unfold den2. rewrite Z.max_l by lia. simpl. lia. Qed.
Lemma den2_pos e q : 0 <= e -> den2 e q = q * 2 ^ e.
Proof. intros. unfold den2. rewrite Z.max_r by lia. reflexivity. Qed.

Lemma rne_div_nonneg a b : 0 <= a -> 0 < b -> 0 <= rne_div a b.
Proof. intros. apply rne_div_ge; lia. Qed.


Lemma nearest_float_finite s p q s' m e :
  nearest_float s p q = S754_finite s' m e ->
  s' = s /\ e <= emax - prec /\
  ((Zpos m = nf_man p q /\ e = nf_exp p q /\ nf_man p q <> 2 ^ prec) \/
   (Zpos m = 2 ^ (prec - 1) /\ e = nf_exp p q + 1 /\ nf_man p q = 2 ^ prec)).
Proof.
  unfold nearest_float. fold (nf_exp p q). fold (nf_man p q).
  destruct (Z.eqb_spec (nf_man p q) (2 ^ prec)) as [E|E].
  - destruct (2 ^ (prec - 1)) eqn:P; try discriminate.
    destruct (Z.leb_spec (nf_exp p q + 1) (emax - prec)); try discriminate.
    intros X; inversion X; subst. auto 10.
  - destruct (nf_man p q) eqn:P; try discriminate.
    destruct (Z.leb_spec (nf_exp p q) (emax - prec)); try discriminate.
    intros X; inversion X; subst. auto 10.
Qed.

Lemma decimal_round_small s k s' m e :
  0 < k -> nf_exp k 1000 <= -10 ->
  nearest_float s k (10 ^ 3) = S754_finite s' m e ->
  decimal_round m e 3 = k.
Proof.
  intros Hk He H. change (10 ^ 3) with 1000 in H.
  apply nearest_float_finite in H. destruct H as (_ & _ & H).
  pose proof (rne_div_bounds (num2 (nf_exp k 1000) k) (den2 (nf_exp k 1000) 1000)) as B.
  fold (nf_man k 1000) in B.
  rewrite num2_neg, den2_neg in B by lia. specialize (B ltac:(lia)).
  assert (P : 2 ^ 10 <= 2 ^ (- nf_exp k 1000)) by (apply Z.pow_le_mono_r; lia).
  change (2 ^ 10) with 1024 in P.
  unfold decimal_round. change (Z.of_nat 3) with 3. change (10 ^ 3) with 1000.
  assert (e <= 0) by (unfold prec in *; lia).
  rewrite num2_pos, den2_pos by lia.
  apply rne_div_unique; [apply Z.mul_pos_pos; [lia | apply Z.pow_pos_nonneg; lia] |].
  destruct H as [(Hm & -> & _) | (Hm & -> & Hn)].
  - rewrite Hm. nia.
  - rewrite Hm. rewrite Hn in B. unfold prec in *.
    replace (- nf_exp k 1000) with (1 + - (nf_exp k 1000 + 1)) in * by lia.
    rewrite Z.pow_add_r in * by lia.
    change (2 ^ 1) with 2 in *. change (2 ^ 53) with (2 * 2 ^ 52) in B.
    change (2 ^ (53 - 1)) with (2 ^ 52).
    set (t := 2 ^ (- (nf_exp k 1000 + 1))) in *. set (u := 2 ^ 52) in *. lia.
Qed.


Lemma flog2_unique p q f :
  0 < q -> 0 <= f -> q * 2 ^ f <= p < q * 2 ^ (f + 1) -> flog2 p q = f.
Proof.
  intros Hq Hf [L U].
  assert (T : 0 < 2 ^ f) by (apply Z.pow_pos_nonneg; lia).
  assert (Hp : 0 < p) by nia.
  destruct (Z.log2_spec p Hp) as [P1 P2], (Z.log2_spec q Hq) as [Q1 Q2].
  pose proof (Z.log2_nonneg q) as Q0.
  assert (A : Z.log2 q + f <= Z.log2 p).
  { apply Z.log2_le_pow2; [lia|]. rewrite Z.pow_add_r by lia. nia. }
  assert (B : Z.log2 p < Z.log2 q + f + 2).
  { apply Z.log2_lt_pow2; [lia|].
    replace (Z.log2 q + f + 2) with (Z.succ (Z.log2 q) + (f + 1)) by lia.
    rewrite Z.pow_add_r by lia.
    assert (0 < 2 ^ (f + 1)) by (apply Z.pow_pos_nonneg; lia). nia. }
  unfold flog2.
  assert (Z.log2 p - Z.log2 q = f \/ Z.log2 p - Z.log2 q = f + 1) as [E|E] by lia;
    rewrite E, num2_pos, den2_pos by lia.
  - destruct (Z.leb_spec (q * 2 ^ f) p); lia.
  - destruct (Z.leb_spec (q * 2 ^ (f + 1)) p); lia.
Qed.

Lemma float_round_large s m e :
  2 ^ (prec - 1) <= Zpos m < 2 ^ prec -> -9 <= e <= emax - prec ->
  float_round (S754_finite s m e) 3 = S754_finite s m e.
Proof.
  unfold prec, emax. change (2 ^ (53 - 1)) with 4503599627370496.
  change (2 ^ 53) with 9007199254740992. intros Hm He.
  set (k := decimal_round m e 3).
  assert (K : 1000 * 2 ^ (52 + e) <= k < 1000 * 2 ^ (53 + e) /\
              rne_div (num2 e k) (den2 e 1000) = Zpos m).
  { unfold k, decimal_round. change (10 ^ Z.of_nat 3) with 1000.
    destruct (Z.le_gt_cases 0 e) as [C|C].
    - rewrite num2_neg, den2_neg by lia. rewrite Z.opp_involutive.
      assert (T : 0 < 2 ^ e) by (apply Z.pow_pos_nonneg; lia).
      rewrite (rne_div_unique _ 1 ltac:(lia) (Z.pos m * 1000 * 2 ^ e)) by lia.
      rewrite !Z.pow_add_r by lia.
      change (2 ^ 52) with 4503599627370496.
      change (2 ^ 53) with 9007199254740992.
      split; [nia|].
      rewrite num2_pos, den2_pos by lia.
      apply rne_div_unique; nia.
    - assert (e = -9 \/ e = -8 \/ e = -7 \/ e = -6 \/ e = -5 \/ e = -4 \/
              e = -3 \/ e = -2 \/ e = -1) as D by lia.
      rewrite num2_pos, den2_pos by lia. rewrite Z.mul_1_l.
      rewrite num2_neg, den2_neg by lia.
      assert (T : 0 < 2 ^ (- e)) by (apply Z.pow_pos_nonneg; lia).
      pose proof (rne_div_bounds (Z.pos m * 1000) (2 ^ (- e)) T) as B.
      pose proof (rne_div_ge (Z.pos m * 1000) (2 ^ (- e)) T (1000 * 2 ^ (52 + e))) as L.
      pose proof (rne_div_le (Z.pos m * 1000) (2 ^ (- e)) T (1000 * 2 ^ (53 + e) - 1)) as U.
      set (r := rne_div (Z.pos m * 1000) (2 ^ (- e))) in *.
      split; [| apply rne_div_unique; [lia|]];
        repeat (destruct D as [D|D]); subst e;
        repeat match goal with
               | H : context [2 ^ ?n] |- _ =>
                   let v := eval vm_compute in (2 ^ n) in change (2 ^ n) with v in H
               | |- context [2 ^ ?n] =>
                   let v := eval vm_compute in (2 ^ n) in change (2 ^ n) with v
               end; lia. }
  destruct K as (K & M).
  assert (P : 0 < 2 ^ (52 + e)) by (apply Z.pow_pos_nonneg; lia).
  unfold float_round. change (NDIGITS_MAX <? Z.of_nat 3) with false. cbv iota.
  fold k. destruct (Z.eqb_spec k 0) as [Z0|_]; [lia|].
  change (10 ^ Z.of_nat 3) with 1000.
  assert (F : flog2 k 1000 = 52 + e).
  { apply flog2_unique; try lia.
    replace (52 + e + 1) with (53 + e) by lia. lia. }
  unfold nearest_float. rewrite F. unfold prec, emax, emin.
  replace (Z.max (52 + e - (53 - 1)) (3 - 1024 - 53)) with e by lia.
  rewrite M.
  destruct (Z.eqb_spec (Z.pos m) (2 ^ 53)) as [X|_].
  { change (2 ^ 53) with 9007199254740992 in X. lia. }
  destruct (Z.leb_spec e (1024 - 53)); [reflexivity | lia].
Qed.


Lemma flog2_spec p q :
  0 < p -> 0 < q -> 0 <= flog2 p q ->
  q * 2 ^ flog2 p q <= p < q * 2 ^ (flog2 p q + 1).
Proof.
  intros Hp Hq. unfold flog2.
  destruct (Z.log2_spec p Hp) as [P1 P2], (Z.log2_spec q Hq) as [Q1 Q2].
  pose proof (Z.log2_nonneg q) as Q0. pose proof (Z.log2_nonneg p) as P0.
  set (l := Z.log2 p - Z.log2 q).
  destruct (Z.leb_spec (den2 l q) (num2 l p)) as [C|C]; intros Hl.
  - rewrite num2_pos, den2_pos in C by lia. split; [exact C|].
    replace (Z.succ (Z.log2 p)) with ((l + 1) + Z.log2 q) in P2 by lia.
    rewrite Z.pow_add_r in P2 by lia.
    assert (0 < 2 ^ (l + 1)) by (apply Z.pow_pos_nonneg; lia). nia.
  - rewrite num2_pos, den2_pos in C by lia.
    replace (l - 1 + 1) with l by lia. split; [|exact C].
    replace (Z.log2 p) with ((l - 1) + Z.succ (Z.log2 q)) in P1 by lia.
    rewrite Z.pow_add_r in P1 by lia.
    assert (0 < 2 ^ (l - 1)) by (apply Z.pow_pos_nonneg; lia). nia.
Qed.

Lemma nearest_float_normal s p q s' m e :
  0 < p -> 0 < q -> -9 <= nf_exp p q ->
  nearest_float s p q = S754_finite s' m e ->
  2 ^ (prec - 1) <= Zpos m < 2 ^ prec /\ -9 <= e <= emax - prec.
Proof.
  intros Hp Hq He H. apply nearest_float_finite in H.
  destruct H as (_ & Hmax & H).
  assert (F : flog2 p q = nf_exp p q + 52).
  { unfold nf_exp, prec, emax, emin in *. lia. }
  destruct (flog2_spec p q Hp Hq ltac:(lia)) as [L U]. rewrite F in L, U.
  assert (B : 2 ^ 52 <= nf_man p q <= 2 ^ 53).
  { unfold nf_man. set (e0 := nf_exp p q) in *.
    assert (D : 0 < den2 e0 q).
    { unfold den2. apply Z.mul_pos_pos; [lia | apply Z.pow_pos_nonneg; lia]. }
    split; [apply rne_div_ge | apply rne_div_le]; try assumption.
    - destruct (Z.le_gt_cases 0 e0).
      + rewrite num2_pos, den2_pos by lia.
        rewrite Z.pow_add_r in L by lia. lia.
      + rewrite num2_neg, den2_neg by lia.
        replace 52 with ((e0 + 52) + - e0) at 1 by lia.
        rewrite Z.pow_add_r by lia.
        assert (0 < 2 ^ (- e0)) by (apply Z.pow_pos_nonneg; lia). nia.
    - destruct (Z.le_gt_cases 0 e0).
      + rewrite num2_pos, den2_pos by lia.
        replace (e0 + 52 + 1) with (e0 + 53) in U by lia.
        rewrite Z.pow_add_r in U by lia. lia.
      + rewrite num2_neg, den2_neg by lia.
        replace 53 with ((e0 + 52 + 1) + - e0) at 1 by lia.
        rewrite (Z.pow_add_r 2 (e0 + 52 + 1)) by lia.
        assert (0 < 2 ^ (- e0)) by (apply Z.pow_pos_nonneg; lia). nia. }
  unfold prec in *. change (2 ^ (53 - 1)) with (2 ^ 52) in *.
  change (2 ^ 52) with 4503599627370496 in *.
  change (2 ^ 53) with 9007199254740992 in *.
  destruct H as [(Hm & -> & Hn) | (Hm & -> & Hn)]; lia.
Qed.

Lemma decimal_round_nonneg m e d : 0 <= decimal_round m e d.
Proof.
  unfold decimal_round, num2, den2. apply rne_div_nonneg.
  - repeat apply Z.mul_nonneg_nonneg; try lia; apply Z.pow_nonneg; lia.
  - apply Z.mul_pos_pos; [lia | apply Z.pow_pos_nonneg; lia].
Qed.

Lemma float_round_idem (x : float) :
  float_round (float_round x 3) 3 = float_round x 3.
Proof.
  destruct x as [s|s| |s m e]; try reflexivity.
  pose proof (decimal_round_nonneg m e 3) as K.
  set (k := decimal_round m e 3) in *.
  assert (E : float_round (S754_finite s m e) 3 =
              if k =? 0 then S754_zero s else nearest_float s k 1000)
    by reflexivity.
  rewrite E. clear E.
  destruct (Z.eqb_spec k 0) as [_|K0]; [reflexivity|].
  destruct (nearest_float s k 1000) as [s'|s'| |s' m' e'] eqn:Y;
    try reflexivity.
  destruct (Z.le_gt_cases (nf_exp k 1000) (-10)) as [C|C].
  - pose proof (decimal_round_small s k s' m' e' ltac:(lia) C Y) as R.
    apply nearest_float_finite in Y as Y'. destruct Y' as (-> & _).
    unfold float_round. change (NDIGITS_MAX <? Z.of_nat 3) with false.
    cbv iota. rewrite R. destruct (Z.eqb_spec k 0); [lia | exact Y].
  - destruct (nearest_float_normal s k 1000 s' m' e') as [M E];
      try assumption; try lia.
    apply float_round_large; assumption.
Qed.

(** The model on inputs whose Python results are known:
    [round(2.675, 2) == 2.67], [round(2.5, 0) == 2.0],
    [round(-0.0001, 3) == -0.0], [math.degrees(math.pi / 2) == 90.0],
    [float("60") == 60.0], [float(" 1_0.5e1 ") == 105.0]. *)
Example round_2_675_to_2_digits :
  float_round f_2_675 2 = S754_finite false 6012305502539612 (-51).
Proof. vm_compute. reflexivity. Qed.

Example round_half_to_even :
  float_round (S754_finite false 5629499534213120 (-51)) 0 =
  S754_finite false 4503599627370496 (-51).
Proof. vm_compute. reflexivity. Qed.

Example round_keeps_negative_zero :
  float_round (S754_finite true 7378697629483821 (-66)) 3 = S754_zero true.
Proof. vm_compute. reflexivity. Qed.

Example degrees_of_half_pi :
  degrees (S754_finite false 7074237752028440 (-52)) =
  S754_finite false 6333186975989760 (-46).
Proof. vm_compute. reflexivity. Qed.

Example float_of_string_60 :
  float_of_string "60" = Ok (S754_finite false 8444249301319680 (-47)).
Proof. vm_compute. reflexivity. Qed.

Example float_of_string_underscore_exponent :
  float_of_string " 1_0.5e1 " =
  Ok (S754_finite false 7388718138654720 (-46)).
Proof. vm_compute. reflexivity. Qed.

Example float_of_string_rejects :
  map float_of_string
    ["abc"; ""; "."; "1e"; "1_"; "_1"; "1__0"; "+-1"; "1 2"; "0x10"]%string =
  repeat (Raise (mk_exn ValueError "could not convert string to float")) 10.
Proof. vm_compute. reflexivity. Qed.

(** ** The value formatter *)

(** Induction on values with the elements of a list as premises. *)
Lemma value_nested_ind (P : value -> Prop) :
  P VNone -> (forall b, P (VBool b)) -> (forall n, P (VInt n)) ->
  (forall x, P (VFloat x)) -> (forall s, P (VStr s)) ->
  (forall l, Forall P l -> P (VList l)) ->
  (forall l, Forall P l -> P (VTuple l)) ->
  (forall l, P (VVector l)) -> (forall l, P (VEuler l)) ->
  forall v, P v.
Proof.
  intros HN HB HI HF HS HL HT HV HE.
  fix IH 1.
  intros [ |b|n|x|s|l|l|l|l];
    [exact HN | apply HB | apply HI | apply HF | apply HS | |
    | apply HV | apply HE].
  - apply HL. induction l as [|v l IHl]; constructor; [apply IH | exact IHl].
  - apply HT. induction l as [|v l IHl]; constructor; [apply IH | exact IHl].
Qed.

Lemma truncate_idem (v : value) :
  truncate (truncate v default_digits) default_digits = truncate v default_digits.
Proof.
  induction v as [ |b|n|x|s|l IH|l IH|l|l] using value_nested_ind;
    try reflexivity.
  - cbn. f_equal. apply float_round_idem.
  - cbn. f_equal. rewrite map_map.
    induction IH as [|v l Hv _ IHl]; cbn; [reflexivity|].
    f_equal; [exact Hv | exact IHl].
  - cbn. f_equal. rewrite map_map. apply map_ext.
    intros x. cbn. f_equal. apply float_round_idem.
  - cbn. f_equal. rewrite map_map. apply map_ext.
    intros x. cbn. f_equal. apply float_round_idem.
Qed.

Lemma float_round_sign (x : float) (digits : nat) :
  sign_of (float_round x digits) = sign_of x.
Proof.
  destruct x as [s|s| |s m e]; try reflexivity.
  unfold float_round. destruct (NDIGITS_MAX <? Z.of_nat digits); [reflexivity|].
  destruct (decimal_round m e digits =? 0); [reflexivity|].
  unfold nearest_float.
  destruct (_ =? _); [destruct (2 ^ (prec - 1)) | destruct (rne_div _ _)];
    try reflexivity; destruct (_ <=? _); reflexivity.
Qed.

Lemma decimal_round_nearest (m : positive) (e : Z) (digits : nat) :
  let k := decimal_round m e digits in
  let num := num2 (- e) (Zpos m * 10 ^ Z.of_nat digits) in
  let den := den2 (- e) 1 in
  0 < den /\ 2 * k * den - den <= 2 * num <= 2 * k * den + den.
Proof.
  cbv zeta. assert (D : 0 < den2 (- e) 1).
  { unfold den2. apply Z.mul_pos_pos; [lia | apply Z.pow_pos_nonneg; lia]. }
  split; [exact D | apply rne_div_bounds; exact D].
Qed.

(** The float chosen by [nearest_float] is within half a unit in the last
    place of [p / q]: [| p / (q * 2^e) - m | <= 1/2]. *)
Lemma nearest_float_error s p q s' m e :
  0 < q ->
  nearest_float s p q = S754_finite s' m e ->
  2 * Zpos m * den2 e q - den2 e q <= 2 * num2 e p
    <= 2 * Zpos m * den2 e q + den2 e q.
Proof.
  intros Hq H. apply nearest_float_finite in H. destruct H as (_ & _ & H).
  assert (D : 0 < den2 (nf_exp p q) q).
  { unfold den2. apply Z.mul_pos_pos; [lia | apply Z.pow_pos_nonneg; lia]. }
  pose proof (rne_div_bounds (num2 (nf_exp p q) p) (den2 (nf_exp p q) q) D)
    as B.
  fold (nf_man p q) in B.
  destruct H as [(Hm & -> & _) | (Hm & -> & Hn)]; rewrite Hm.
  - exact B.
  - rewrite Hn in B. unfold prec in *.
    change (2 ^ (53 - 1)) with 4503599627370496.
    change (2 ^ 53) with 9007199254740992 in B.
    set (e0 := nf_exp p q) in *.
    destruct (Z.le_gt_cases 0 e0) as [C|C].
    + rewrite num2_pos, den2_pos in * by lia.
      rewrite Z.pow_add_r by lia. change (2 ^ 1) with 2.
      assert (0 < 2 ^ e0) by (apply Z.pow_pos_nonneg; lia). nia.
    + rewrite num2_neg, den2_neg in * by lia.
      replace (- e0) with (1 + - (e0 + 1)) in B by lia.
      rewrite Z.pow_add_r in B by lia. change (2 ^ 1) with 2 in B.
      set (t := 2 ^ (- (e0 + 1))) in *. nia.
Qed.

(** C5: the formatter is idempotent at its default precision,
    [truncate(truncate(v)) = truncate(v)] for every value [v], and the
    list it returns for a list, a [Vector] or an [Euler] has as many
    elements as its input, at every precision. *)
Theorem truncate_idempotent_and_arity :
  (forall v,
     truncate (truncate v default_digits) default_digits =
     truncate v default_digits) /\
  (forall l digits, exists l',
     truncate (VVector l) digits = VList l' /\ List.length l' = List.length l) /\
  (forall l digits, exists l',
     truncate (VEuler l) digits = VList l' /\ List.length l' = List.length l) /\
  (forall l digits, exists l',
     truncate (VList l) digits = VList l' /\ List.length l' = List.length l).
Proof.
  split; [exact truncate_idem|].
  repeat split; intros l digits; eexists; (split; [reflexivity|]);
    apply List.length_map.
Qed.

(** C6: at every precision [digits], a float is replaced by
    [round(x, digits)]: its sign is kept and, for a finite float and at
    most 323 digits, the result is the float nearest to [k / 10^digits]
    (zero if [k = 0], else within half a unit in the last place of it)
    where [k] is the integer nearest to [x * 10^digits] (ties to even); a
    list, [Vector] or [Euler] is mapped element by element to a list of the
    same length; any value that is neither a float nor such a sequence is
    returned as it is. *)
Theorem truncate_rounds_maps_or_passes (digits : nat) :
  (forall x,
     truncate (VFloat x) digits = VFloat (float_round x digits) /\
     sign_of (float_round x digits) = sign_of x) /\
  (forall s m e,
     Z.of_nat digits <= NDIGITS_MAX ->
     let k := decimal_round m e digits in
     let num := num2 (- e) (Zpos m * 10 ^ Z.of_nat digits) in
     let den := den2 (- e) 1 in
     (0 < den /\ 2 * k * den - den <= 2 * num <= 2 * k * den + den) /\
     float_round (S754_finite s m e) digits =
       (if k =? 0 then S754_zero s
        else nearest_float s k (10 ^ Z.of_nat digits)) /\
     (forall s' m' e',
        float_round (S754_finite s m e) digits = S754_finite s' m' e' ->
        let q := 10 ^ Z.of_nat digits in
        2 * Zpos m' * den2 e' q - den2 e' q <= 2 * num2 e' k
          <= 2 * Zpos m' * den2 e' q + den2 e' q)) /\
  (forall l,
     truncate (VVector l) digits =
       VList (map (fun x => truncate (VFloat x) digits) l) /\
     truncate (VEuler l) digits =
       VList (map (fun x => truncate (VFloat x) digits) l) /\
     List.length (map (fun x => truncate (VFloat x) digits) l) = List.length l) /\
  (forall l,
     truncate (VList l) digits = VList (map (fun v => truncate v digits) l) /\
     List.length (map (fun v => truncate v digits) l) = List.length l) /\
  (forall v,
     is_float v = false -> is_sequence v = false -> truncate v digits = v).
Proof.
  split; [|split; [|split; [|split]]].
  - intros x. split; [reflexivity | apply float_round_sign].
  - intros s m e Hd. cbv zeta. split; [apply decimal_round_nearest|].
    unfold float_round.
    destruct (Z.ltb_spec NDIGITS_MAX (Z.of_nat digits)); [lia|].
    split; [reflexivity|]. intros s' m' e'.
    destruct (decimal_round m e digits =? 0); [discriminate|].
    apply nearest_float_error. apply Z.pow_pos_nonneg; lia.
  - intros l. repeat split; try reflexivity. apply List.length_map.
  - intros l. split; [reflexivity | apply List.length_map].
  - intros [ |b|n|x|s|l|l|l|l]; cbn; intros; try reflexivity; discriminate.
Qed.

Lemma truncate_rounds_maps_or_passes_witness :
  truncate (VStr "boss") 3 = VStr "boss" /\
  truncate (VFloat f_0_12345) 3 = VFloat f_0_123 /\
  float_round (S754_finite false 8895509983982204 (-56)) 3 =
    nearest_float false 123 (10 ^ 3).
Proof.
  pose proof (truncate_rounds_maps_or_passes 3) as (F & R & _ & _ & O).
  split; [apply O; reflexivity|].
  split; [rewrite (proj1 (F f_0_12345)); vm_compute; reflexivity|].
  destruct (R false 8895509983982204%positive (-56)) as (_ & E & _);
    [vm_compute; discriminate|].
  rewrite E. vm_compute. reflexivity.
Defined.

(** C10: integers and booleans pass through the formatter unchanged at
    every precision, so the property value [42] stays [42]; the formatter
    changes a value only if it is a float or a list, [Vector] or [Euler];
    and the Game tab shows the integer property [health] of the sample
    object as [health: 42]. *)
Theorem truncate_keeps_int_and_bool :
  (forall n digits, truncate (VInt n) digits = VInt n) /\
  (forall b digits, truncate (VBool b) digits = VBool b) /\
  truncate (VInt 42) default_digits = VInt 42 /\
  (forall v digits,
     truncate v digits = v \/ is_float v = true \/ is_sequence v = true) /\
  (forall l digits, truncate (VTuple l) digits = VTuple l) /\
  hd_error (tabs (window (run (populate_game_tab objA) fresh_process)) Game) =
    Some (unlabelled (Cat (Lit "health") (Cat (Lit ": ") (Str (VInt 42))))).
Proof.
  repeat split; try reflexivity.
  intros [ |b|n|x|s|l|l|l|l] digits; cbn; auto.
Qed.

(** ** Substring search *)

Lemma prefix_spec (a b : string) :
  prefix a b = true <-> exists post, b = (a ++ post)%string.
Proof.
  revert b. induction a as [|c a IH]; intros [|c' b]; cbn.
  - split; [intros _; exists EmptyString; reflexivity | reflexivity].
  - split; [intros _; exists (String c' b); reflexivity | reflexivity].
  - split; [discriminate | intros [post H]; discriminate].
  - destruct (Ascii.ascii_dec c c') as [->|N].
    + rewrite IH. split; intros [post H]; exists post.
      * rewrite H. reflexivity.
      * inversion H. reflexivity.
    + split; [discriminate | intros [post H]; inversion H; congruence].
Qed.

(** [contains f s] holds exactly when [f] occurs in [s]. *)
Lemma contains_spec (f s : string) :
  contains f s = true <->
  exists pre post, s = (pre ++ f ++ post)%string.
Proof.
  induction s as [|c s IH]; cbn [contains].
  - rewrite prefix_spec. split.
    + intros [post H]. exists EmptyString, post. exact H.
    + intros [[|c pre] [post H]]; [exists post; exact H | discriminate].
  - rewrite orb_true_iff, prefix_spec, IH. split.
    + intros [[post H] | [pre [post H]]].
      * exists EmptyString, post. exact H.
      * exists (String c pre), post. rewrite H. reflexivity.
    + intros [[|c' pre] [post H]].
      * left. exists post. exact H.
      * right. exists pre, post. inversion H. reflexivity.
Qed.

Lemma matches_empty (s : string) : matches "" s = true.
Proof.
  unfold matches. apply contains_spec.
  exists EmptyString, (lower s). reflexivity.
Qed.

(** ** Statements that leave an observation alone *)

Section Preserves.
Context {X : Type} (f : Process -> X).

Lemma preserves_ret {A} (a : A) : preserves f (ret a).
Proof. intros p. reflexivity. Qed.

Lemma preserves_gets {A} (g : Process -> A) : preserves f (gets g).
Proof. intros p. reflexivity. Qed.

Lemma preserves_modify (g : Process -> Process) :
  (forall p, f (g p) = f p) -> preserves f (modify g).
Proof. intros H p. apply H. Qed.

Lemma preserves_bind {A B} (c : M A) (k : A -> M B) :
  preserves f c -> (forall a, preserves f (k a)) -> preserves f (bind c k).
Proof.
  intros Hc Hk p. unfold bind. specialize (Hc p).
  destruct (c p) as [[a|e] p']; cbn in *; [rewrite Hk|]; exact Hc.
Qed.

Lemma preserves_try {A} (c : M A) handles (h : exn -> M A) :
  preserves f c -> (forall e, preserves f (h e)) ->
  preserves f (try_except c handles h).
Proof.
  intros Hc Hh p. unfold try_except. specialize (Hc p).
  destruct (c p) as [[a|e] p']; cbn in *; [exact Hc|].
  destruct (handles e); [rewrite Hh|]; exact Hc.
Qed.

Lemma preserves_for_each {A} (l : list A) (body : A -> M unit) :
  (forall a, preserves f (body a)) -> preserves f (for_each l body).
Proof.
  intros H. induction l as [|a l IH]; cbn [for_each].
  - apply preserves_ret.
  - apply preserves_bind; [apply H | intros _; exact IH].
Qed.

Hypothesis f_ignores_events : ignores_events f.

Lemma preserves_raise {A} (e : exn) : preserves f (@raise A e).
Proof. intros p. apply f_ignores_events. Qed.

Lemma preserves_lift {A} (r : result A) : preserves f (lift r).
Proof. destruct r; [apply preserves_ret | apply preserves_raise]. Qed.

Lemma preserves_emit (ev : event) : preserves f (emit ev).
Proof. intros p. apply f_ignores_events. Qed.
End Preserves.

(** Decompose a compound statement along its control structure. *)
Ltac preserve_step :=
  match goal with
  | |- preserves _ (bind _ _) => apply preserves_bind; [|intros ?]
  | |- preserves _ (try_except _ _ _) => apply preserves_try; [|intros ?]
  | |- preserves _ (for_each _ _) => apply preserves_for_each; intros ?
  | |- preserves _ (ret _) => apply preserves_ret
  | |- preserves _ (gets _) => apply preserves_gets
  | |- preserves _ (lift _) => apply preserves_lift; intros ? ?; reflexivity
  | |- preserves _ (raise _) => apply preserves_raise; intros ? ?; reflexivity
  | |- preserves _ (emit _) => apply preserves_emit; intros ? ?; reflexivity
  | |- preserves _ (modify _) => apply preserves_modify; intros ?; reflexivity
  | |- preserves _ (match ?x with _ => _ end) => destruct x
  end.

Ltac preserve :=
  unfold Full.refresh_properties, Basic.refresh_properties,
    Full.update_object_list, Basic.update_object_list,
    Full.update_properties_tabs, Basic.update_properties_tabs,
    Full.filter_objects, Basic.filter_objects,
    Full.set_fps, Basic.set_fps, Full.toggle_mouse, Basic.toggle_mouse,
    Full.show_error, populate_tabs, populate_physics_tab, populate_game_tab,
    populate_transform_tab, populate_materials_tab, populate_animations_tab,
    populate_logic_sensors_tab, clear_tabs, delete_tabs_later, addRow,
    addWidget, call;
  repeat preserve_step.

Lemma full_refresh_preserves_selection (w : World) :
  preserves selected_of (Full.refresh_properties w).
Proof. preserve. Qed.

Lemma basic_refresh_preserves_selection (w : World) :
  preserves selected_of (Basic.refresh_properties w).
Proof. preserve. Qed.

(** ** Selection across refresh ticks *)

(** C1, as stated, fails: with [A] selected and a new snapshot that holds
    only [B], the refresh leaves [A] selected. *)
Lemma selection_left_dangling :
  ~ reconciles_selection Full.refresh_properties /\
  ~ reconciles_selection Basic.refresh_properties.
Proof.
  split; intros H.
  - destruct (H world_B [objB] selected_A_full "A"%string eq_refl eq_refl)
      as [D _].
    specialize (D eq_refl). vm_compute in D. discriminate D.
  - destruct (H world_B [objB] selected_A_basic "A"%string eq_refl eq_refl)
      as [D _].
    specialize (D eq_refl). vm_compute in D. discriminate D.
Qed.

(** C1, amended: a refresh tick keeps the selection verbatim in both
    scripts, whether or not the selected identifier is in the new snapshot
    and whether or not the tick raises; only a click sets it. *)
Theorem refresh_keeps_selection (w : World) (p : Process) :
  selected_object (window (run (Full.refresh_properties w) p)) =
    selected_object (window p) /\
  selected_object (window (run (Basic.refresh_properties w) p)) =
    selected_object (window p) /\
  (forall n,
     selected_object (window (run (Full.select_object w n) p)) = Some n /\
     selected_object (window (run (Basic.select_object w n) p)) = Some n).
Proof.
  split; [exact (full_refresh_preserves_selection w p)|].
  split; [exact (basic_refresh_preserves_selection w p)|].
  intros n. split.
  - assert (P : preserves selected_of (Full.update_properties_tabs w))
      by preserve.
    exact (P (add_event
                (LogInfo (Cat (Lit "Selected object: ") (Str (VStr n))))
                (set_window (set_selected_object (Some n)) p))).
  - assert (P : preserves selected_of (Basic.update_properties_tabs w))
      by preserve.
    exact (P (set_window (set_selected_object (Some n)) p)).
Qed.

(** ** Rows across refresh ticks *)

Lemma try_show_error_ok (c : M unit) (message : text) (p : Process) :
  fst (try_except c is_Exception
         (fun e => Full.show_error message (Some e)) p) = Ok tt.
Proof.
  unfold try_except. destruct (c p) as [[[]|e] p']; reflexivity.
Qed.

Lemma selection_after (c : M unit) (p : Process) :
  preserves selected_of c -> selection (snd (c p)) = selection p.
Proof.
  intros H. unfold selection. specialize (H p). unfold selected_of in H.
  rewrite H. reflexivity.
Qed.

Lemma presented_after (c : M unit) (w : World) (p : Process) :
  preserves selected_of c -> presented w (snd (c p)) = presented w p.
Proof.
  intros H. unfold presented. rewrite (selection_after c p H). reflexivity.
Qed.

Lemma full_tabs_unresolved (w : World) (p : Process) :
  presented w p = None ->
  fst (Full.update_properties_tabs w p) = Ok tt /\
  tabs_of (snd (Full.update_properties_tabs w p)) = tabs_of p.
Proof.
  unfold presented, Full.update_properties_tabs, bind, gets, try_except.
  destruct (selection p) as [n|]; [|intros _; split; reflexivity].
  destruct (getCurrentScene w) as [objects|e]; cbn.
  - intros ->. split; reflexivity.
  - intros _. split; reflexivity.
Qed.

Lemma basic_tabs_unresolved (w : World) (p : Process) :
  presented w p = None ->
  tabs_of (snd (Basic.update_properties_tabs w p)) = tabs_of p.
Proof.
  unfold presented, Basic.update_properties_tabs, bind, gets.
  destruct (selection p) as [n|]; [|intros _; reflexivity].
  destruct (getCurrentScene w) as [objects|e]; cbn.
  - intros ->. reflexivity.
  - intros _. reflexivity.
Qed.

(** C2, as stated, fails: after [A] was presented, a tick on a snapshot
    without [A] leaves the Physics tab with the rows of [A]. *)
Lemma stale_rows_survive :
  ~ clears_rows_without_selection Full.refresh_properties /\
  ~ clears_rows_without_selection Basic.refresh_properties.
Proof.
  split; intros H.
  - specialize (H world_B selected_A_full Physics eq_refl).
    vm_compute in H. discriminate H.
  - specialize (H world_B selected_A_basic Physics eq_refl).
    vm_compute in H. discriminate H.
Qed.

(** C2, amended: a refresh tick that resolves the selection to no entity
    (nothing selected, the selected identifier absent from the snapshot, or
    no snapshot) leaves the rows of every tab as they were before the
    tick, in both scripts. *)
Theorem refresh_without_entity_keeps_rows (w : World) (p : Process) :
  presented w p = None ->
  tabs (window (run (Full.refresh_properties w) p)) = tabs (window p) /\
  tabs (window (run (Basic.refresh_properties w) p)) = tabs (window p).
Proof.
  intros N. split.
  - assert (S : preserves selected_of (Full.update_object_list w)) by preserve.
    assert (T : preserves tabs_of (Full.update_object_list w)) by preserve.
    pose proof (try_show_error_ok
                  (objects <- lift (getCurrentScene w) ;;
                   modify (set_window (set_object_list_layout [])) ;;
                   for_each objects (fun obj => addWidget (new_button obj)))
                  (Lit "Error updating object list") p) as O.
    fold (Full.update_object_list w) in O.
    pose proof (presented_after _ w p S) as Q. specialize (T p).
    unfold run, Full.refresh_properties, try_except, bind.
    destruct (Full.update_object_list w p) as [r p1]. cbn in O, Q, T.
    subst r. rewrite N in Q.
    destruct (full_tabs_unresolved w p1 Q) as [O2 T2].
    destruct (Full.update_properties_tabs w p1) as [r2 p2]. cbn in O2, T2.
    subst r2. cbn. unfold tabs_of in *. rewrite T2. exact T.
  - assert (S : preserves selected_of (Basic.update_object_list w)) by preserve.
    assert (T : preserves tabs_of (Basic.update_object_list w)) by preserve.
    pose proof (presented_after _ w p S) as Q. specialize (T p).
    unfold run, Basic.refresh_properties, bind.
    destruct (Basic.update_object_list w p) as [[[]|e] p1];
      cbn [fst snd] in Q, T |- *.
    + rewrite N in Q.
      exact (eq_trans (basic_tabs_unresolved w p1 Q) T).
    + exact T.
Qed.

Lemma refresh_without_entity_keeps_rows_witness :
  tabs (window (run (Full.refresh_properties world_B) selected_A_full)) =
    tabs (window selected_A_full) /\
  tabs (window (run (Basic.refresh_properties world_B) selected_A_full)) =
    tabs (window selected_A_full).
Proof.
  apply (refresh_without_entity_keeps_rows world_B selected_A_full).
  reflexivity.
Defined.

(** ** The object list and the search filter *)

Lemma for_each_addWidget (objects : list KX_GameObject) (p : Process) :
  fst (for_each objects (fun obj => addWidget (new_button obj)) p) = Ok tt /\
  layout_of (snd (for_each objects (fun obj => addWidget (new_button obj)) p)) =
    layout_of p ++ map new_button objects.
Proof.
  revert p. induction objects as [|obj objects IH]; intros p; cbn.
  - split; [reflexivity | symmetry; apply app_nil_r].
  - unfold bind.
    change (addWidget (new_button obj) p)
      with (@Ok unit tt,
            set_window
              (fun w => set_object_list_layout
                          (object_list_layout w ++ [new_button obj]) w) p).
    cbv beta iota.
    destruct (IH (set_window
                    (fun w => set_object_list_layout
                                (object_list_layout w ++ [new_button obj]) w)
                    p)) as [O L].
    split; [exact O|]. rewrite L. unfold layout_of. cbn.
    rewrite <- app_assoc. reflexivity.
Qed.

Lemma displayed_new_buttons (objects : list KX_GameObject) :
  map button_text (filter visible (map new_button objects)) = [].
Proof.
  induction objects as [|obj objects IH]; cbn; [reflexivity | exact IH].
Qed.

(** After [update_object_list] no entry is shown, whatever the search bar
    holds: the rebuilt buttons are in a layout that is not installed. *)
Lemma update_object_list_displayed (w : World) objects (p : Process) :
  getCurrentScene w = Ok objects ->
  displayed (run (Full.update_object_list w) p) = [] /\
  displayed (run (Basic.update_object_list w) p) = [].
Proof.
  intros E.
  pose proof (for_each_addWidget objects
                (set_window (set_object_list_layout []) p)) as [O L].
  unfold displayed, run, Full.update_object_list, Basic.update_object_list,
    try_except, bind, modify. rewrite E. cbn [lift ret].
  destruct (for_each objects _ _) as [r p1]. cbn [fst snd] in *. subst r.
  cbn [snd]. unfold layout_of in L. rewrite L. cbn [app].
  split; apply displayed_new_buttons.
Qed.

(** Right after [filter_objects f] the list shows exactly the entries that
    contain [f] case-insensitively, in order. *)
Lemma filter_objects_displayed (f : string) (p : Process) :
  displayed (run (Full.filter_objects f) p) =
    filter (matches f) (map button_text (layout_of p)) /\
  displayed (run (Basic.filter_objects f) p) =
    filter (matches f) (map button_text (layout_of p)).
Proof.
  unfold displayed, run, layout_of. cbn.
  assert (H : forall l,
             map button_text (filter visible (map (set_visibility f) l)) =
             filter (matches f) (map button_text l)).
  { induction l as [|b l IH]; cbn; [reflexivity|].
    destruct (matches f (button_text b)); cbn; rewrite IH; reflexivity. }
  split; apply H.
Qed.

Lemma full_update_object_list_ok (w : World) (p : Process) :
  fst (Full.update_object_list w p) = Ok tt.
Proof. unfold Full.update_object_list. apply try_show_error_ok. Qed.

Lemma basic_update_object_list_ok (w : World) objects (p : Process) :
  getCurrentScene w = Ok objects ->
  fst (Basic.update_object_list w p) = Ok tt.
Proof.
  intros E. unfold Basic.update_object_list, bind, modify. rewrite E.
  cbn [lift ret]. apply for_each_addWidget.
Qed.

(** After a refresh tick no entry is shown: the text of the search bar
    plays no part in the tick. *)
Lemma refresh_displays_no_entry (w : World) objects (p : Process) :
  getCurrentScene w = Ok objects ->
  displayed (run (Full.refresh_properties w) p) = [] /\
  displayed (run (Basic.refresh_properties w) p) = [].
Proof.
  intros E.
  destruct (update_object_list_displayed w objects p E) as [DF DB].
  unfold run in DF, DB. split.
  - assert (P : preserves layout_of (Full.update_properties_tabs w))
      by preserve.
    pose proof (full_update_object_list_ok w p) as O.
    unfold run, Full.refresh_properties, try_except, bind.
    destruct (Full.update_object_list w p) as [r p1]. cbn [fst snd] in *.
    subst r. specialize (P p1).
    destruct (Full.update_properties_tabs w p1) as [[[]|e] p2];
      cbn [fst snd] in *; unfold displayed in *; fold (layout_of p1) in DF.
    + fold (layout_of p2). rewrite P. exact DF.
    + cbn. fold (layout_of p2). rewrite P. exact DF.
  - assert (P : preserves layout_of (Basic.update_properties_tabs w))
      by preserve.
    pose proof (basic_update_object_list_ok w objects p E) as O.
    unfold run, Basic.refresh_properties, bind.
    destruct (Basic.update_object_list w p) as [r p1]. cbn [fst snd] in *.
    subst r. specialize (P p1). unfold displayed in *.
    fold (layout_of p1) in DB.
    fold (layout_of (snd (Basic.update_properties_tabs w p1))).
    rewrite P. exact DB.
Qed.

(** C3 on the failing input: the scene holds [A] and [B] and the search
    bar was set to [a], so [A] alone is shown; one refresh tick later the
    bar still holds [a] and only [A] matches it, but the tick has rebuilt
    the buttons of [A] and [B] without consulting the bar and without
    showing them, so no entry is shown.  Hence neither script displays the
    matching identifiers after a tick. *)
Theorem refresh_discards_search_filter :
  displayed searching_a_full = ["A"%string] /\
  search_bar (window (run (Full.refresh_properties world_AB) searching_a_full))
    = "a"%string /\
  filter (matches "a") (map name [objA; objB]) = ["A"%string] /\
  map button_text
    (layout_of (run (Full.refresh_properties world_AB) searching_a_full))
    = ["A"%string; "B"%string] /\
  displayed (run (Full.refresh_properties world_AB) searching_a_full) = [] /\
  map button_text
    (layout_of (run (Basic.refresh_properties world_AB) searching_a_basic))
    = ["A"%string; "B"%string] /\
  displayed (run (Basic.refresh_properties world_AB) searching_a_basic) = [] /\
  ~ displays_matching Full.refresh_properties /\
  ~ displays_matching Basic.refresh_properties.
Proof.
  do 7 (split; [vm_compute; reflexivity|]).
  split; intros H.
  - specialize (H world_AB [objA; objB] searching_a_full eq_refl).
    vm_compute in H. discriminate H.
  - specialize (H world_AB [objA; objB] searching_a_basic eq_refl).
    vm_compute in H. discriminate H.
Qed.

(** ** Faults during a refresh tick *)

Lemma raised_of_app (a b : list event) :
  raised_of (a ++ b) = raised_of a ++ raised_of b.
Proof.
  induction a as [|[e|m o|m o|m|m] a IH]; cbn;
    [reflexivity | try exact IH ..].
  f_equal. exact IH.
Qed.

Lemma reported_of_app (a b : list event) :
  reported_of (a ++ b) = reported_of a ++ reported_of b.
Proof.
  induction a as [|[e|m [e|]|m o|m|m] a IH]; cbn;
    [reflexivity | try exact IH ..].
  f_equal. exact IH.
Qed.

Section Contained.

Lemma contained_ret {A} (a : A) : contained (ret a).
Proof.
  intros p. exists []. cbn. split; [symmetry; apply app_nil_r | reflexivity].
Qed.

Lemma contained_gets {A} (g : Process -> A) : contained (gets g).
Proof.
  intros p. exists []. cbn. split; [symmetry; apply app_nil_r | reflexivity].
Qed.

Lemma contained_raise {A} (e : exn) : contained (@raise A e).
Proof. intros p. exists [Raised e]. cbn. split; reflexivity. Qed.

Lemma contained_lift {A} (r : result A) : contained (lift r).
Proof. destruct r; [apply contained_ret | apply contained_raise]. Qed.

Lemma contained_quiet (g : Process -> Process) :
  (forall p, events (g p) = events p) -> contained (modify g).
Proof.
  intros H p. exists []. cbn. rewrite H.
  split; [symmetry; apply app_nil_r | reflexivity].
Qed.

Lemma contained_emit (ev : event) :
  raised_of [ev] = [] -> reported_of [ev] = [] -> contained (emit ev).
Proof.
  intros R D p. exists [ev]. cbn [fst snd emit modify add_event events].
  split; [reflexivity | congruence].
Qed.

Lemma contained_bind {A B} (c : M A) (k : A -> M B) :
  contained c -> (forall a, contained (k a)) -> contained (bind c k).
Proof.
  intros Hc Hk p. unfold bind. destruct (Hc p) as (n1 & E1 & B1).
  destruct (c p) as [[a|e] p1]; cbn [fst snd] in *.
  - destruct (Hk a p1) as (n2 & E2 & B2). exists (n1 ++ n2).
    rewrite E2, E1, app_assoc. split; [reflexivity|].
    rewrite raised_of_app, reported_of_app, B1.
    destruct (fst (k a p1)); rewrite B2;
      [reflexivity | apply app_assoc].
  - exists n1. split; assumption.
Qed.

Lemma contained_for_each {A} (l : list A) (body : A -> M unit) :
  (forall a, contained (body a)) -> contained (for_each l body).
Proof.
  intros H. induction l as [|a l IH]; cbn [for_each].
  - apply contained_ret.
  - apply contained_bind; [apply H | intros _; exact IH].
Qed.

(** [try: c  except Exception as e: show_error(message, e)] reports the
    exception [c] ends with, and ends normally. *)
Lemma contained_try_show_error (c : M unit) (message : text) :
  contained c ->
  contained (try_except c is_Exception
               (fun e => Full.show_error message (Some e))).
Proof.
  intros Hc p. unfold try_except. destruct (Hc p) as (n1 & E1 & B1).
  destruct (c p) as [[a|e] p1]; cbn [fst snd] in *.
  - exists n1. split; assumption.
  - exists (n1 ++ [Dialog message (Some e); LogError message (Some e)]).
    cbn. rewrite E1, <- !app_assoc. split; [reflexivity|].
    rewrite raised_of_app, reported_of_app, B1. cbn.
    rewrite app_nil_r. reflexivity.
Qed.

End Contained.

Ltac contain_step :=
  match goal with
  | |- contained (bind _ _) => apply contained_bind; [|intros ?]
  | |- contained (try_except _ is_Exception _) =>
      apply contained_try_show_error
  | |- contained (for_each _ _) => apply contained_for_each; intros ?
  | |- contained (ret _) => apply contained_ret
  | |- contained (gets _) => apply contained_gets
  | |- contained (lift _) => apply contained_lift
  | |- contained (raise _) => apply contained_raise
  | |- contained (emit _) => apply contained_emit; reflexivity
  | |- contained (modify _) => apply contained_quiet; intros ?; reflexivity
  | |- contained (match ?x with _ => _ end) => destruct x
  end.

Ltac contain :=
  unfold Full.refresh_properties, Full.update_object_list,
    Full.update_properties_tabs, populate_tabs, populate_physics_tab,
    populate_game_tab, populate_transform_tab, populate_materials_tab,
    populate_animations_tab, populate_logic_sensors_tab, clear_tabs, addRow,
    addWidget, call;
  repeat contain_step.

Lemma full_refresh_contained (w : World) :
  contained (Full.refresh_properties w).
Proof. contain. Qed.

(** C4, as stated, fails for [gui_basic.py]: with no current scene the
    exception leaves the tick and nothing reports it. *)
Lemma basic_tick_lets_exception_escape :
  ~ tick_contained Basic.refresh_properties /\
  fst (Basic.refresh_properties world_down fresh_process) = Raise no_scene /\
  reported_of (events (run (Basic.refresh_properties world_down) fresh_process))
    = [].
Proof.
  split; [|split; reflexivity].
  intros H. destruct (H world_down fresh_process) as [O _].
  vm_compute in O. discriminate O.
Qed.

(** C4, amended to [GUI_FULL.py]: whatever the engine raises during a
    refresh tick, the tick ends normally, it only extends the trace, and
    the exceptions handed to [show_error] are exactly the exceptions
    raised, each once and in order. *)
Theorem full_tick_reports_every_exception :
  tick_contained Full.refresh_properties.
Proof.
  intros w p. split.
  - unfold Full.refresh_properties. apply try_show_error_ok.
  - destruct (full_refresh_contained w p) as (new & E & B).
    pose proof (try_show_error_ok
                  (Full.update_object_list w ;; Full.update_properties_tabs w)
                  (Lit "Error refreshing properties") p) as O.
    fold (Full.refresh_properties w) in O. rewrite O in B.
    exists new. split; [exact E | symmetry; exact B].
Qed.

(** ** The Physics presenter *)

(** C7: for an entity whose physics id is falsy the Physics presenter adds
    the one placeholder row and nothing else; for an entity with physics
    whose mass and velocities can be read it adds exactly the three rows
    Mass, Linear Velocity and Angular Velocity, each showing the formatted
    value; in both cases it ends normally and leaves the other tabs
    alone. *)
Theorem physics_presenter_rows (obj : KX_GameObject) (p : Process) (id : Z) :
  getPhysicsId obj = Ok id ->
  (id = 0 ->
   fst (populate_physics_tab obj p) = Ok tt /\
   tabs (window (run (populate_physics_tab obj) p)) Physics =
     tabs (window p) Physics ++ [no_physics_row]) /\
  (id <> 0 ->
   forall m lv av,
     mass obj = Ok m -> linearVelocity obj = Ok lv ->
     angularVelocity obj = Ok av ->
     fst (populate_physics_tab obj p) = Ok tt /\
     tabs (window (run (populate_physics_tab obj) p)) Physics =
       tabs (window p) Physics ++ physics_rows m lv av) /\
  (forall t, t <> Physics ->
     tabs (window (run (populate_physics_tab obj) p)) t = tabs (window p) t).
Proof.
  intros E. split; [|split].
  - intros ->. unfold run, populate_physics_tab, bind. rewrite E.
    split; reflexivity.
  - intros N m lv av Em El Ea.
    unfold run, populate_physics_tab, bind. rewrite E. cbn [lift ret].
    destruct (Z.eqb_spec id 0) as [Z0|_]; [contradiction|]. cbn [negb].
    rewrite Em, El, Ea. cbn. rewrite <- !app_assoc. split; reflexivity.
  - intros t Ht.
    assert (P : preserves (fun q => tabs (window q) t)
                  (populate_physics_tab obj)).
    { unfold populate_physics_tab, addRow.
      repeat first
        [ preserve_step
        | apply preserves_modify; intros q; cbn;
          destruct t; try reflexivity; contradiction ]. }
    exact (P p).
Qed.

Lemma physics_presenter_rows_witness :
  tabs (window (run (populate_physics_tab objB) fresh_process)) Physics =
    [no_physics_row] /\
  tabs (window (run (populate_physics_tab objA) fresh_process)) Physics =
    physics_rows (VFloat f_1_5)
      (VVector [f_0_12345; S754_zero false; f_2_675])
      (VVector [S754_zero false; S754_zero true; f_1_5]).
Proof.
  split.
  - apply (physics_presenter_rows objB fresh_process 0 eq_refl). reflexivity.
  - apply (proj1 (proj2 (physics_presenter_rows objA fresh_process 7 eq_refl)));
      [discriminate | reflexivity ..].
Defined.

(** ** Playback commands *)

Lemma float_of_string_error (s : string) (e : exn) :
  float_of_string s = Raise e ->
  e = mk_exn ValueError "could not convert string to float".
Proof.
  unfold float_of_string.
  repeat match goal with
         | |- context [match ?x with _ => _ end] => destruct x
         end;
    intros H; try discriminate H; inversion H; reflexivity.
Qed.

(** C8: when the text of the FPS field does not parse as a float,
    [set_fps] ends normally, makes no call to the engine, changes neither
    the window nor the global flag, and produces exactly one error report:
    one dialog (with its log record) in [GUI_FULL.py], one printed line in
    [gui_basic.py]. *)
Theorem set_fps_rejects_unparsable (fps_input : string) (e : exn) (p : Process) :
  float_of_string fps_input = Raise e ->
  (fst (Full.set_fps fps_input p) = Ok tt /\
   bge (run (Full.set_fps fps_input) p) = bge p /\
   window (run (Full.set_fps fps_input) p) = window p /\
   mouse_visible (run (Full.set_fps fps_input) p) = mouse_visible p /\
   events (run (Full.set_fps fps_input) p) =
     events p ++ [Raised e; Dialog invalid_fps (Some e);
                  LogError invalid_fps (Some e)]) /\
  (fst (Basic.set_fps fps_input p) = Ok tt /\
   bge (run (Basic.set_fps fps_input) p) = bge p /\
   window (run (Basic.set_fps fps_input) p) = window p /\
   mouse_visible (run (Basic.set_fps fps_input) p) = mouse_visible p /\
   events (run (Basic.set_fps fps_input) p) =
     events p ++ [Raised e; Stdout invalid_fps]).
Proof.
  intros E. pose proof (float_of_string_error _ _ E) as ->.
  unfold run, Full.set_fps, Basic.set_fps, try_except, bind. rewrite E.
  cbn. rewrite <- !app_assoc. repeat split; reflexivity.
Qed.

Lemma set_fps_rejects_unparsable_witness :
  bge (run (Full.set_fps "abc") fresh_process) = [] /\
  bge (run (Basic.set_fps "abc") fresh_process) = [] /\
  List.length (events (run (Full.set_fps "abc") fresh_process)) = 3%nat.
Proof.
  destruct (set_fps_rejects_unparsable "abc"
              (mk_exn ValueError "could not convert string to float")
              fresh_process eq_refl)
    as [(_ & B1 & _ & _ & E1) (_ & B2 & _)].
  split; [exact B1 | split; [exact B2 | rewrite E1; reflexivity]].
Defined.

(** C9 on the failing input: on the first toggle of a session the module
    global [mouse_visible] is unbound, since no code ever assigns it before
    [not mouse_visible] reads it: [GUI_FULL.py] forwards nothing to
    [bge.render.showMouse] and leaves the flag unbound, [gui_basic.py] ends
    the callback with [NameError].  So neither script leaves the flag
    defined and forwards it on every toggle. *)
Lemma first_toggle_forwards_nothing :
  ~ toggles_and_forwards Full.toggle_mouse /\
  ~ toggles_and_forwards Basic.toggle_mouse /\
  bge (run Full.toggle_mouse fresh_process) = [] /\
  mouse_visible (run Full.toggle_mouse fresh_process) = None /\
  fst (Basic.toggle_mouse fresh_process) =
    Raise (mk_exn NameError "name 'mouse_visible' is not defined").
Proof.
  split; [|split; [|repeat split; reflexivity]]; intros H;
    destruct (H fresh_process) as (b & F & _); vm_compute in F;
    discriminate F.
Qed.

(** * Properties of the rest of the code *)

(** ** The search filter *)

Lemma lower_ascii_idem (c : ascii) : lower_ascii (lower_ascii c) = lower_ascii c.
Proof. destruct c as [[] [] [] [] [] [] [] []]; reflexivity. Qed.

Lemma lower_idem (s : string) : lower (lower s) = lower s.
Proof.
  induction s as [|c s IH]; cbn; [reflexivity|].
  rewrite lower_ascii_idem, IH. reflexivity.
Qed.

Lemma set_visibility_texts (f : string) (l : list QPushButton) :
  map button_text (map (set_visibility f) l) = map button_text l.
Proof. rewrite map_map. apply map_ext. reflexivity. Qed.

Lemma filter_all (l : list string) (f : string -> bool) :
  (forall s, f s = true) -> filter f l = l.
Proof.
  intros H. induction l as [|s l IH]; cbn; [reflexivity|].
  rewrite H, IH. reflexivity.
Qed.

(** X1: right after [filter_objects f] the list shows exactly the entries
    whose text contains [f] when both are lowered, in their order; no
    button is added, removed, renamed or moved; and the test is the
    substring test. *)
Theorem filter_objects_exact (f : string) (p : Process) :
  displayed (run (Full.filter_objects f) p) =
    filter (matches f) (map button_text (layout_of p)) /\
  displayed (run (Basic.filter_objects f) p) =
    filter (matches f) (map button_text (layout_of p)) /\
  map button_text (layout_of (run (Full.filter_objects f) p)) =
    map button_text (layout_of p) /\
  map button_text (layout_of (run (Basic.filter_objects f) p)) =
    map button_text (layout_of p) /\
  (forall s,
     matches f s = true <->
     exists pre post, lower s = (pre ++ lower f ++ post)%string).
Proof.
  destruct (filter_objects_displayed f p) as [F B].
  split; [exact F|]. split; [exact B|].
  split; [apply set_visibility_texts|]. split; [apply set_visibility_texts|].
  intros s. apply contains_spec.
Qed.

(** X2: filters do not accumulate: a second filter shows what it would
    have shown alone; the empty filter shows every entry; and lowering the
    filter text changes nothing, so the test ignores case. *)
Theorem filter_objects_last_wins (f g : string) (p : Process) :
  displayed (run (Full.filter_objects g) (run (Full.filter_objects f) p)) =
    displayed (run (Full.filter_objects g) p) /\
  displayed (run (Basic.filter_objects g) (run (Basic.filter_objects f) p)) =
    displayed (run (Basic.filter_objects g) p) /\
  displayed (run (Full.filter_objects "") p) = map button_text (layout_of p) /\
  displayed (run (Basic.filter_objects "") p) = map button_text (layout_of p) /\
  displayed (run (Full.filter_objects (lower f)) p) =
    displayed (run (Full.filter_objects f) p) /\
  displayed (run (Basic.filter_objects (lower f)) p) =
    displayed (run (Basic.filter_objects f) p).
Proof.
  assert (L : forall h q,
             map button_text (layout_of (run (Full.filter_objects h) q)) =
             map button_text (layout_of q))
    by (intros; apply set_visibility_texts).
  assert (L' : forall h q,
             map button_text (layout_of (run (Basic.filter_objects h) q)) =
             map button_text (layout_of q))
    by (intros; apply set_visibility_texts).
  repeat split.
  - rewrite (proj1 (filter_objects_displayed g _)), L.
    symmetry. apply filter_objects_displayed.
  - rewrite (proj2 (filter_objects_displayed g _)), L'.
    symmetry. apply filter_objects_displayed.
  - rewrite (proj1 (filter_objects_displayed _ _)).
    apply filter_all, matches_empty.
  - rewrite (proj2 (filter_objects_displayed _ _)).
    apply filter_all, matches_empty.
  - rewrite !(proj1 (filter_objects_displayed _ _)).
    apply filter_ext. intros s. unfold matches. rewrite lower_idem. reflexivity.
  - rewrite !(proj2 (filter_objects_displayed _ _)).
    apply filter_ext. intros s. unfold matches. rewrite lower_idem. reflexivity.
Qed.

(** ** Rebuilding the object list *)

Lemma update_object_list_window (w : World) objects (p : Process) :
  getCurrentScene w = Ok objects ->
  (fst (Full.update_object_list w p) = Ok tt /\
   window (run (Full.update_object_list w) p) =
     set_object_list_layout (map new_button objects) (window p)) /\
  (fst (Basic.update_object_list w p) = Ok tt /\
   window (run (Basic.update_object_list w) p) =
     set_object_list_layout (map new_button objects) (window p)).
Proof.
  intros E.
  assert (S : preserves selected_of (Basic.update_object_list w)) by preserve.
  assert (T : preserves tabs_of (Basic.update_object_list w)) by preserve.
  assert (B : preserves (fun q => search_bar (window q))
                (Basic.update_object_list w)) by preserve.
  assert (D : preserves (fun q => deleted_later (window q))
                (Basic.update_object_list w)) by preserve.
  pose proof (basic_update_object_list_ok w objects p E) as O.
  pose proof (for_each_addWidget objects
                (set_window (set_object_list_layout []) p)) as [_ L].
  assert (R : Full.update_object_list w p = Basic.update_object_list w p).
  { unfold Full.update_object_list, try_except.
    fold (Basic.update_object_list w).
    destruct (Basic.update_object_list w p) as [[[]|e] q];
      [reflexivity | discriminate O]. }
  assert (W : window (run (Basic.update_object_list w) p) =
              set_object_list_layout (map new_button objects) (window p)).
  { specialize (S p). specialize (T p). specialize (B p). specialize (D p).
    unfold selected_of, tabs_of in S, T. cbv beta in B, D. unfold run.
    assert (L' : layout_of (snd (Basic.update_object_list w p)) =
                 map new_button objects).
    { unfold Basic.update_object_list, bind, modify. rewrite E.
      cbn [lift ret]. exact L. }
    unfold layout_of in L'.
    destruct (window (snd (Basic.update_object_list w p))) as [s l t d b].
    cbn in *. subst. unfold set_object_list_layout. reflexivity. }
  unfold run in *. rewrite R. repeat split; assumption.
Qed.

(** X3: when the scene is available, [update_object_list] makes
    [self.object_list_layout] a new layout that holds one new button per
    scene object, in scene order and with repeated names kept; none of
    these buttons is shown, so no entry is displayed; the buttons it found
    are no longer in [self.object_list_layout]; it ends normally and
    touches neither selection, rows nor search bar. *)
Theorem update_object_list_rebuilds (w : World) objects (p : Process) :
  getCurrentScene w = Ok objects ->
  (fst (Full.update_object_list w p) = Ok tt /\
   window (run (Full.update_object_list w) p) =
     set_object_list_layout (map new_button objects) (window p) /\
   map button_text (layout_of (run (Full.update_object_list w) p)) =
     map name objects /\
   displayed (run (Full.update_object_list w) p) = []) /\
  (fst (Basic.update_object_list w p) = Ok tt /\
   window (run (Basic.update_object_list w) p) =
     set_object_list_layout (map new_button objects) (window p) /\
   map button_text (layout_of (run (Basic.update_object_list w) p)) =
     map name objects /\
   displayed (run (Basic.update_object_list w) p) = []).
Proof.
  intros E.
  destruct (update_object_list_window w objects p E) as [[F1 F2] [B1 B2]].
  unfold displayed, layout_of. rewrite F2, B2.
  cbn [object_list_layout set_object_list_layout].
  rewrite displayed_new_buttons, map_map.
  repeat split; assumption || reflexivity.
Qed.

Lemma update_object_list_rebuilds_witness :
  layout_of (run (Full.update_object_list world_B) searching_a_full) =
    [{| button_text := "B"; visible := false |}] /\
  displayed (run (Full.update_object_list world_B) searching_a_full) = [].
Proof.
  pose proof (update_object_list_rebuilds world_B [objB]
                searching_a_full eq_refl) as [[_ [W [_ D]]] _].
  split; [unfold layout_of; rewrite W; reflexivity | exact D].
Defined.

Lemma refresh_scene_failure (w : World) (e : exn) (p : Process) :
  getCurrentScene w = Raise e ->
  (fst (Full.refresh_properties w p) = Ok tt /\
   window (run (Full.refresh_properties w) p) = window p /\
   reported_of (skipn (List.length (events p))
                  (events (run (Full.refresh_properties w) p))) =
     match selection p with Some _ => [e; e] | None => [e] end) /\
  (Basic.refresh_properties w p = (Raise e, add_event (Raised e) p)).
Proof.
  intros E. split.
  - unfold run, Full.refresh_properties, Full.update_object_list,
      Full.update_properties_tabs, try_except, bind, gets.
    rewrite E. cbn [lift raise is_Exception fst snd].
    assert (K : forall evs more : list event,
               skipn (List.length evs) (evs ++ more) = more).
    { intros evs more. induction evs; [reflexivity | assumption]. }
    unfold selection. cbn.
    destruct (selected_object (window p)) as [n|]; cbn;
      [destruct (String.eqb n ""); cbn|];
      rewrite <- ?app_assoc, K; repeat split; reflexivity.
  - unfold Basic.refresh_properties, Basic.update_object_list, bind.
    rewrite E. reflexivity.
Qed.

(** X4: when the scene cannot be read, a refresh tick leaves the whole
    window as it was.  [GUI_FULL.py] ends the tick normally and shows one
    dialog for the list and, if an entry is selected, a second one for the
    tabs; [gui_basic.py] ends the tick with the exception and reports
    nothing. *)
Theorem refresh_without_scene (w : World) (e : exn) (p : Process) :
  getCurrentScene w = Raise e ->
  (fst (Full.refresh_properties w p) = Ok tt /\
   window (run (Full.refresh_properties w) p) = window p /\
   reported_of (skipn (List.length (events p))
                  (events (run (Full.refresh_properties w) p))) =
     match selection p with Some _ => [e; e] | None => [e] end) /\
  (Basic.refresh_properties w p = (Raise e, add_event (Raised e) p)).
Proof.
  intros E. destruct (refresh_scene_failure w e p E) as [F B].
  split; [exact F | exact B].
Qed.

Lemma refresh_without_scene_witness :
  window (run (Full.refresh_properties world_down) selected_A_full) =
    window selected_A_full /\
  fst (Basic.refresh_properties world_down selected_A_basic) = Raise no_scene.
Proof.
  destruct (refresh_without_scene world_down no_scene selected_A_full eq_refl)
    as [(_ & W & _) _].
  split; [exact W|].
  rewrite (proj2 (refresh_without_scene world_down no_scene selected_A_basic
                    eq_refl)).
  reflexivity.
Defined.

(** ** What the presenters add *)

Lemma appends_ext (c : M unit) (R R' : tab -> list Row) :
  appends c R -> (forall t, R t = R' t) -> appends c R'.
Proof.
  intros H E p. destruct (H p) as [O T]. split; [exact O|].
  intros t. rewrite T, E. reflexivity.
Qed.

Lemma appends_ret : appends (ret tt) (fun _ => []).
Proof.
  intros p. split; [reflexivity|]. intros t. symmetry. apply app_nil_r.
Qed.

Lemma appends_addRow (X : tab) (r : Row) : appends (addRow X r) (on_tab X [r]).
Proof.
  intros p. split; [reflexivity|]. intros t. unfold tabs_of, on_tab. cbn.
  destruct (tab_eqb t X); [reflexivity | symmetry; apply app_nil_r].
Qed.

Lemma appends_bind (c1 c2 : M unit) (R1 R2 : tab -> list Row) :
  appends c1 R1 -> appends c2 R2 ->
  appends (c1 ;; c2) (fun t => R1 t ++ R2 t).
Proof.
  intros H1 H2 p. unfold bind. destruct (H1 p) as [O1 T1].
  destruct (c1 p) as [r p1]. cbn [fst snd] in *. subst r.
  destruct (H2 p1) as [O2 T2]. split; [exact O2|].
  intros t. rewrite T2, T1, app_assoc. reflexivity.
Qed.

Lemma appends_read {A} (r : result A) (a : A) (k : A -> M unit) R :
  r = Ok a -> appends (k a) R -> appends (x <- lift r ;; k x) R.
Proof. intros -> H. exact H. Qed.

Lemma appends_game_loop (obj : KX_GameObject) (keys : list string)
      (vals : string -> value) :
  (forall k, In k keys -> getitem obj k = Ok (vals k)) ->
  appends
    (for_each keys (fun key =>
       v <- lift (getitem obj key) ;;
       addRow Game
         (unlabelled
            (Cat (Lit key)
               (Cat (Lit ": ") (Str (truncate v default_digits)))))))
    (on_tab Game (map (fun k => game_row k (vals k)) keys)).
Proof.
  induction keys as [|k keys IH]; intros H; cbn [for_each map].
  - eapply appends_ext; [apply appends_ret|]. intros []; reflexivity.
  - eapply appends_ext.
    + apply appends_bind.
      * eapply appends_read; [apply H; left; reflexivity|].
        apply appends_addRow.
      * apply IH. intros k' Hk. apply H. right. exact Hk.
    + intros []; reflexivity.
Qed.

Lemma appends_materials (obj : KX_GameObject) :
  appends (populate_materials_tab obj) (on_tab Materials [materials_row obj]).
Proof.
  unfold populate_materials_tab, materials_row.
  destruct (meshes obj) as [[|materials rest]|]; apply appends_addRow.
Qed.

(** The rows each tab receives from an entity whose attributes can all be
    read. *)
Lemma appends_populate_tabs (obj : KX_GameObject) id m lv av keys vals
      pos rot scl :
  getPhysicsId obj = Ok id ->
  mass obj = Ok m -> linearVelocity obj = Ok lv -> angularVelocity obj = Ok av ->
  getPropertyNames obj = Ok keys ->
  (forall k, In k keys -> getitem obj k = Ok (vals k)) ->
  worldPosition obj = Ok pos -> worldOrientation_to_euler obj = Ok rot ->
  worldScale obj = Ok scl ->
  appends (populate_tabs obj)
    (fun t =>
       match t with
       | Physics => if id =? 0 then [no_physics_row] else physics_rows m lv av
       | Game => map (fun k => game_row k (vals k)) keys
       | Transform => transform_rows pos rot scl
       | Materials => [materials_row obj]
       | Animations => [animations_row]
       | LogicSensors => [logic_sensors_row]
       end).
Proof.
  intros Ei Em El Ea Ek Ev Ep Er Es.
  assert (P : appends (populate_physics_tab obj)
                (on_tab Physics
                   (if id =? 0 then [no_physics_row]
                    else physics_rows m lv av))).
  { unfold populate_physics_tab.
    eapply appends_read; [exact Ei|]. destruct (id =? 0); cbn [negb].
    - apply appends_addRow.
    - eapply appends_ext.
      + eapply appends_read; [exact Em|]. apply appends_bind;
          [apply appends_addRow|].
        eapply appends_read; [exact El|]. apply appends_bind;
          [apply appends_addRow|].
        eapply appends_read; [exact Ea|]. apply appends_addRow.
      + intros []; reflexivity. }
  assert (G : appends (populate_game_tab obj)
                (on_tab Game (map (fun k => game_row k (vals k)) keys))).
  { unfold populate_game_tab. eapply appends_read; [exact Ek|].
    apply appends_game_loop. exact Ev. }
  assert (T : appends (populate_transform_tab obj)
                (on_tab Transform (transform_rows pos rot scl))).
  { unfold populate_transform_tab.
    destruct pos as [[px py] pz], rot as [[rx ry] rz], scl as [[sx sy] sz].
    eapply appends_ext.
    - eapply (appends_read _ _ _ _ Ep). apply appends_bind;
        [apply appends_addRow|].
      eapply (appends_read _ _ _ _ Er). apply appends_bind;
        [apply appends_addRow|].
      eapply (appends_read _ _ _ _ Es). apply appends_addRow.
    - intros []; reflexivity. }
  unfold populate_tabs. eapply appends_ext.
  - apply appends_bind; [exact P|]. apply appends_bind; [exact G|].
    apply appends_bind; [exact T|].
    apply appends_bind; [apply appends_materials|].
    apply appends_bind; apply appends_addRow.
  - intros []; destruct (id =? 0); cbn; rewrite ?app_nil_r; reflexivity.
Qed.

(** X6: for an entity whose attributes can all be read, the six presenters
    end normally and append, to whatever a tab holds: Physics, the
    placeholder or the three rows; Game, one row [key: value] per property
    in the order of [getPropertyNames] (none for no property); Transform,
    the rows Position, Rotation in degrees and Scale; Materials,
    Animations and Logic Sensors, one row each. *)
Theorem populate_tabs_rows (obj : KX_GameObject) id m lv av keys vals
        pos rot scl (p : Process) :
  getPhysicsId obj = Ok id ->
  mass obj = Ok m -> linearVelocity obj = Ok lv -> angularVelocity obj = Ok av ->
  getPropertyNames obj = Ok keys ->
  (forall k, In k keys -> getitem obj k = Ok (vals k)) ->
  worldPosition obj = Ok pos -> worldOrientation_to_euler obj = Ok rot ->
  worldScale obj = Ok scl ->
  fst (populate_tabs obj p) = Ok tt /\
  forall t,
    tabs (window (run (populate_tabs obj) p)) t =
    tabs (window p) t ++
    match t with
    | Physics => if id =? 0 then [no_physics_row] else physics_rows m lv av
    | Game => map (fun k => game_row k (vals k)) keys
    | Transform => transform_rows pos rot scl
    | Materials => [materials_row obj]
    | Animations => [animations_row]
    | LogicSensors => [logic_sensors_row]
    end.
Proof.
  intros Ei Em El Ea Ek Ev Ep Er Es.
  destruct (appends_populate_tabs obj id m lv av keys vals pos rot scl
              Ei Em El Ea Ek Ev Ep Er Es p) as [O T].
  split; [exact O | exact T].
Qed.

Lemma populate_tabs_rows_witness :
  map (fun t => List.length (presenter_rows objA t))
    [Physics; Game; Transform; Materials; Animations; LogicSensors] =
  [3; 2; 3; 1; 1; 1]%nat /\
  presenter_rows objA Game =
    [game_row "health" (VInt 42); game_row "tag" (VStr "boss")].
Proof.
  pose proof (populate_tabs_rows objA 7 (VFloat f_1_5)
                (VVector [f_0_12345; S754_zero false; f_2_675])
                (VVector [S754_zero false; S754_zero true; f_1_5])
                ["health"%string; "tag"%string]
                (fun k => if String.eqb k "health" then VInt 42 else VStr "boss")
                zero3 zero3 zero3 fresh_process
                eq_refl eq_refl eq_refl eq_refl eq_refl) as H.
  destruct H as [_ T]; try reflexivity.
  - intros k [<-|[<-|[]]]; reflexivity.
  - unfold presenter_rows, tabs_of. cbn [map].
    rewrite !T. split; reflexivity.
Defined.

(** ** A read that fails half-way *)

Lemma game_loop_stops (obj : KX_GameObject) before k after vals e (p : Process) :
  (forall k', In k' before -> getitem obj k' = Ok (vals k')) ->
  getitem obj k = Raise e ->
  let loop :=
    for_each (before ++ k :: after) (fun key =>
      v <- lift (getitem obj key) ;;
      addRow Game
        (unlabelled
           (Cat (Lit key) (Cat (Lit ": ") (Str (truncate v default_digits))))))
  in
  fst (loop p) = Raise e /\
  events (snd (loop p)) = events p ++ [Raised e] /\
  forall t,
    tabs_of (snd (loop p)) t =
    tabs_of p t ++ on_tab Game (map (fun k' => game_row k' (vals k')) before) t.
Proof.
  intros Hb Hk. cbv zeta. revert p.
  induction before as [|k0 before IH]; intros p; cbn [app for_each map].
  - unfold bind. rewrite Hk. cbn. repeat split.
    intros t. unfold on_tab. destruct (tab_eqb t Game);
      symmetry; apply app_nil_r.
  - unfold bind at 1. unfold bind at 1.
    rewrite (Hb k0 (or_introl eq_refl)). cbn [lift ret].
    set (p1 := snd (addRow Game (game_row k0 (vals k0)) p)).
    change (addRow Game _ p) with (@Ok unit tt, p1). cbv beta iota.
    destruct (IH (fun k' H => Hb k' (or_intror H)) p1) as (O & E & T).
    split; [exact O|]. split; [exact E|].
    intros t. rewrite T. unfold p1, tabs_of, on_tab. cbn.
    destruct (tab_eqb t Game); cbn; rewrite <- ?app_assoc; reflexivity.
Qed.

(** X7: when reading the property [k] raises, the Game presenter ends with
    that exception; the rows of the properties listed before [k] are in the
    tab, those of [k] and of the properties after it are not, and no other
    tab is touched. *)
Theorem game_tab_stops_at_failing_property
        (obj : KX_GameObject) before k after vals e (p : Process) :
  getPropertyNames obj = Ok (before ++ k :: after) ->
  (forall k', In k' before -> getitem obj k' = Ok (vals k')) ->
  getitem obj k = Raise e ->
  fst (populate_game_tab obj p) = Raise e /\
  tabs (window (run (populate_game_tab obj) p)) Game =
    tabs (window p) Game ++ map (fun k' => game_row k' (vals k')) before /\
  (forall t, t <> Game ->
     tabs (window (run (populate_game_tab obj) p)) t = tabs (window p) t) /\
  events (run (populate_game_tab obj) p) = events p ++ [Raised e].
Proof.
  intros En Hb Hk.
  destruct (game_loop_stops obj before k after vals e p Hb Hk) as (O & E & T).
  assert (Q : populate_game_tab obj p =
              for_each (before ++ k :: after) (fun key =>
                v <- lift (getitem obj key) ;;
                addRow Game
                  (unlabelled
                     (Cat (Lit key)
                        (Cat (Lit ": ") (Str (truncate v default_digits))))))
                p).
  { unfold populate_game_tab, bind at 1. rewrite En. reflexivity. }
  unfold run. rewrite Q. unfold tabs_of in T.
  split; [exact O|]. split; [exact (T Game)|]. split; [|exact E].
  intros t Ht. rewrite (T t). unfold on_tab.
  destruct t; try apply app_nil_r. contradiction.
Qed.

Lemma game_tab_stops_at_failing_property_witness :
  tabs (window (run (populate_game_tab objC) fresh_process)) Game =
    [game_row "hp" (VInt 3)] /\
  fst (populate_game_tab objC fresh_process) = Raise (mk_exn KeyError "gone").
Proof.
  assert (R : forall k', In k' ["hp"%string] -> getitem objC k' = Ok (VInt 3))
    by (intros k' [<-|[]]; reflexivity).
  destruct (game_tab_stops_at_failing_property objC
              ["hp"%string] "gone"%string ["tag"%string] (fun _ => VInt 3)
              (mk_exn KeyError "gone") fresh_process eq_refl R eq_refl)
    as (O & T & _).
  split; [exact T | exact O].
Defined.

(** ** Rebuilding the rows *)

Lemma tabs_only_ret {A} (a : A) : tabs_only (ret a).
Proof. intros p p' H. split; [reflexivity | exact H]. Qed.

Lemma tabs_only_raise {A} (e : exn) : tabs_only (@raise A e).
Proof. intros p p' H. split; [reflexivity | exact H]. Qed.

Lemma tabs_only_lift {A} (r : result A) : tabs_only (lift r).
Proof. destruct r; [apply tabs_only_ret | apply tabs_only_raise]. Qed.

Lemma tabs_only_bind {A B} (c : M A) (k : A -> M B) :
  tabs_only c -> (forall a, tabs_only (k a)) -> tabs_only (bind c k).
Proof.
  intros Hc Hk p p' H. unfold bind. destruct (Hc p p' H) as [F T].
  destruct (c p) as [[a|e] q], (c p') as [[a'|e'] q']; cbn [fst snd] in *;
    try discriminate F.
  - inversion F; subst a'. apply Hk. exact T.
  - inversion F; subst e'. split; [reflexivity | exact T].
Qed.

Lemma tabs_only_for_each {A} (l : list A) (body : A -> M unit) :
  (forall a, tabs_only (body a)) -> tabs_only (for_each l body).
Proof.
  intros H. induction l as [|a l IH]; cbn [for_each].
  - apply tabs_only_ret.
  - apply tabs_only_bind; [apply H | intros _; exact IH].
Qed.

Lemma tabs_only_addRow (X : tab) (r : Row) : tabs_only (addRow X r).
Proof.
  intros p p' H. split; [reflexivity|]. unfold tabs_of in *. cbn.
  rewrite H. reflexivity.
Qed.

Ltac tabs_only_step :=
  match goal with
  | |- tabs_only (bind _ _) => apply tabs_only_bind; [|intros ?]
  | |- tabs_only (for_each _ _) => apply tabs_only_for_each; intros ?
  | |- tabs_only (ret _) => apply tabs_only_ret
  | |- tabs_only (lift _) => apply tabs_only_lift
  | |- tabs_only (addRow _ _) => apply tabs_only_addRow
  | |- tabs_only (match ?x with _ => _ end) => destruct x
  end.

Lemma tabs_only_populate_tabs (obj : KX_GameObject) :
  tabs_only (populate_tabs obj).
Proof.
  unfold populate_tabs, populate_physics_tab, populate_game_tab,
    populate_transform_tab, populate_materials_tab, populate_animations_tab,
    populate_logic_sensors_tab.
  repeat tabs_only_step.
Qed.

Lemma adds_rows_ret {A} (a : A) : adds_rows (ret a).
Proof.
  exists (Ok a), (fun _ => []). intros p. split; [reflexivity|].
  intros t. symmetry. apply app_nil_r.
Qed.

Lemma adds_rows_raise {A} (e : exn) : adds_rows (@raise A e).
Proof.
  exists (Raise e), (fun _ => []). intros p. split; [reflexivity|].
  intros t. symmetry. apply app_nil_r.
Qed.

Lemma adds_rows_lift {A} (r : result A) : adds_rows (lift r).
Proof. destruct r; [apply adds_rows_ret | apply adds_rows_raise]. Qed.

Lemma adds_rows_bind {A B} (c : M A) (k : A -> M B) :
  adds_rows c -> (forall a, adds_rows (k a)) -> adds_rows (bind c k).
Proof.
  intros (r & R & Hc) Hk. destruct r as [a|e].
  - destruct (Hk a) as (r' & R' & Ha).
    exists r', (fun t => R t ++ R' t). intros p. unfold bind.
    destruct (Hc p) as [F T]. destruct (c p) as [r0 q].
    cbn [fst snd] in *. subst r0. destruct (Ha q) as [F' T'].
    split; [exact F'|]. intros t. rewrite T', T, app_assoc. reflexivity.
  - exists (Raise e), R. intros p. unfold bind.
    destruct (Hc p) as [F T]. destruct (c p) as [r0 q].
    cbn [fst snd] in *. subst r0. split; [reflexivity | exact T].
Qed.

Lemma adds_rows_for_each {A} (l : list A) (body : A -> M unit) :
  (forall a, adds_rows (body a)) -> adds_rows (for_each l body).
Proof.
  intros H. induction l as [|a l IH]; cbn [for_each].
  - apply adds_rows_ret.
  - apply adds_rows_bind; [apply H | intros _; exact IH].
Qed.

Lemma adds_rows_addRow (X : tab) (r : Row) : adds_rows (addRow X r).
Proof.
  exists (Ok tt), (on_tab X [r]). intros p. split; [reflexivity|].
  intros t. unfold tabs_of, on_tab. cbn.
  destruct (tab_eqb t X); [reflexivity | symmetry; apply app_nil_r].
Qed.

Ltac adds_rows_step :=
  match goal with
  | |- adds_rows (bind _ _) => apply adds_rows_bind; [|intros ?]
  | |- adds_rows (for_each _ _) => apply adds_rows_for_each; intros ?
  | |- adds_rows (ret _) => apply adds_rows_ret
  | |- adds_rows (lift _) => apply adds_rows_lift
  | |- adds_rows (addRow _ _) => apply adds_rows_addRow
  | |- adds_rows (match ?x with _ => _ end) => destruct x
  end.

(** From whatever state the presenters start, they end as they do from
    empty tabs and add the rows they leave in empty tabs after the rows
    they find. *)
Lemma populate_tabs_adds (obj : KX_GameObject) (p : Process) :
  fst (populate_tabs obj p) = fst (populate_tabs obj fresh_process) /\
  forall t,
    tabs_of (run (populate_tabs obj) p) t = tabs_of p t ++ presenter_rows obj t.
Proof.
  assert (H : adds_rows (populate_tabs obj)).
  { unfold populate_tabs, populate_physics_tab, populate_game_tab,
      populate_transform_tab, populate_materials_tab, populate_animations_tab,
      populate_logic_sensors_tab.
    repeat adds_rows_step. }
  destruct H as (r & R & H).
  destruct (H p) as [F T], (H fresh_process) as [F0 T0].
  split; [rewrite F, F0; reflexivity|].
  intros t. unfold presenter_rows, run. rewrite T, T0. reflexivity.
Qed.

Lemma window_ext (a b : DebuggerWindow) :
  selected_object a = selected_object b ->
  object_list_layout a = object_list_layout b ->
  tabs a = tabs b -> deleted_later a = deleted_later b ->
  search_bar a = search_bar b -> a = b.
Proof. destruct a, b. cbn. intros -> -> -> -> ->. reflexivity. Qed.

(** What [update_properties_tabs] of [GUI_FULL.py] leaves in the window
    when the selection resolves to [obj]. *)
Lemma full_update_properties_tabs_presented (w : World) (p : Process) obj :
  presented w p = Some obj ->
  fst (Full.update_properties_tabs w p) = Ok tt /\
  window (run (Full.update_properties_tabs w) p) =
    set_deleted_later (fun _ => O) (set_tabs (presenter_rows obj) (window p)).
Proof.
  intros H.
  assert (S : preserves selected_of (populate_tabs obj)) by preserve.
  assert (L : preserves layout_of (populate_tabs obj)) by preserve.
  assert (D : preserves (fun q => deleted_later (window q)) (populate_tabs obj))
    by preserve.
  assert (B : preserves (fun q => search_bar (window q)) (populate_tabs obj))
    by preserve.
  set (p0 := set_window
               (fun w0 => set_deleted_later (fun _ => O)
                            (set_tabs (fun _ => []) w0)) p).
  destruct (tabs_only_populate_tabs obj p0 fresh_process eq_refl) as [F T].
  specialize (S p0). specialize (L p0). specialize (D p0). specialize (B p0).
  cbv beta in B, D.
  assert (W : window (snd (populate_tabs obj p0)) =
              set_deleted_later (fun _ => O)
                (set_tabs (presenter_rows obj) (window p))).
  { apply window_ext; [exact S | exact L | exact T | exact D | exact B]. }
  unfold presented in H.
  unfold run, Full.update_properties_tabs, try_except, bind, gets.
  destruct (selection p) as [n|]; [|discriminate H].
  destruct (getCurrentScene w) as [objects|e]; [|discriminate H].
  cbn [lift ret]. rewrite H.
  change (clear_tabs p) with (@Ok unit tt, p0). cbv beta iota.
  destruct (populate_tabs obj p0) as [[[]|e] q]; cbn [fst snd] in *.
  - split; [reflexivity | exact W].
  - split; [reflexivity | exact W].
Qed.

(** What [update_properties_tabs] of [gui_basic.py] leaves in the window
    when the selection resolves to [obj]. *)
Lemma basic_update_properties_tabs_presented (w : World) (p : Process) obj :
  presented w p = Some obj ->
  fst (Basic.update_properties_tabs w p) =
    fst (populate_tabs obj fresh_process) /\
  (forall t,
     tabs_of (run (Basic.update_properties_tabs w) p) t =
     tabs_of p t ++ presenter_rows obj t) /\
  (forall t,
     deleted_later (window (run (Basic.update_properties_tabs w) p)) t =
     List.length (tabs_of p t)) /\
  selected_of (run (Basic.update_properties_tabs w) p) = selected_of p /\
  layout_of (run (Basic.update_properties_tabs w) p) = layout_of p /\
  search_bar (window (run (Basic.update_properties_tabs w) p)) =
    search_bar (window p).
Proof.
  intros H.
  assert (S : preserves selected_of (populate_tabs obj)) by preserve.
  assert (L : preserves layout_of (populate_tabs obj)) by preserve.
  assert (D : preserves (fun q => deleted_later (window q)) (populate_tabs obj))
    by preserve.
  assert (B : preserves (fun q => search_bar (window q)) (populate_tabs obj))
    by preserve.
  set (p0 := set_window
               (fun w0 => set_deleted_later
                            (fun t => List.length (tabs w0 t)) w0) p).
  destruct (populate_tabs_adds obj p0) as [F T].
  specialize (S p0). specialize (L p0). specialize (D p0). specialize (B p0).
  cbv beta in B, D.
  unfold presented in H.
  unfold run, Basic.update_properties_tabs, bind, gets in *.
  destruct (selection p) as [n|]; [|discriminate H].
  destruct (getCurrentScene w) as [objects|e]; [|discriminate H].
  cbn [lift ret]. rewrite H.
  change (delete_tabs_later p) with (@Ok unit tt, p0). cbv beta iota.
  split; [exact F|]. split; [exact T|]. split.
  - intros t. rewrite D. reflexivity.
  - split; [exact S | split; [exact L | exact B]].
Qed.

(** X8: when the selection resolves to an entity, the rows
    [update_properties_tabs] leaves are built from the entity alone, but
    the two scripts clear differently.  [GUI_FULL.py] takes the rows it
    finds out of the tabs before the presenters run: it leaves exactly the
    rows the presenters build from empty tabs, and ends normally.
    [gui_basic.py] only calls [deleteLater()] on the rows it finds: when
    it returns, every tab holds the rows found, all of them marked for
    deletion, followed by the presenters' rows.  Selection, object list
    and search bar stay as they were in both. *)
Theorem tabs_rebuilt_from_entity (w : World) (p : Process) obj :
  presented w p = Some obj ->
  (fst (Full.update_properties_tabs w p) = Ok tt /\
   window (run (Full.update_properties_tabs w) p) =
     set_deleted_later (fun _ => O)
       (set_tabs (presenter_rows obj) (window p))) /\
  (fst (Basic.update_properties_tabs w p) =
     fst (populate_tabs obj fresh_process) /\
   (forall t,
      tabs_of (run (Basic.update_properties_tabs w) p) t =
      tabs_of p t ++ presenter_rows obj t) /\
   (forall t,
      deleted_later (window (run (Basic.update_properties_tabs w) p)) t =
      List.length (tabs_of p t)) /\
   selected_of (run (Basic.update_properties_tabs w) p) = selected_of p /\
   layout_of (run (Basic.update_properties_tabs w) p) = layout_of p /\
   search_bar (window (run (Basic.update_properties_tabs w) p)) =
     search_bar (window p)).
Proof.
  intros H. split.
  - exact (full_update_properties_tabs_presented w p obj H).
  - exact (basic_update_properties_tabs_presented w p obj H).
Qed.

Lemma tabs_rebuilt_from_entity_witness :
  tabs_of (run (Full.update_properties_tabs world_AB) selected_A_full)
    Animations = [animations_row] /\
  tabs_of (run (Basic.update_properties_tabs world_AB) selected_A_basic)
    Animations = [animations_row; animations_row] /\
  deleted_later
    (window (run (Basic.update_properties_tabs world_AB) selected_A_basic))
    Animations = 1%nat.
Proof.
  destruct (tabs_rebuilt_from_entity world_AB selected_A_full objA eq_refl)
    as [[_ WF] _].
  destruct (tabs_rebuilt_from_entity world_AB selected_A_basic objA eq_refl)
    as [_ (_ & TB & DB & _)].
  split; [unfold tabs_of; rewrite WF; reflexivity|].
  split; [rewrite TB; reflexivity | rewrite DB; reflexivity].
Defined.

(** ** What a tick leaves in the window *)

Lemma update_properties_tabs_unresolved (w : World) (p : Process) :
  presented w p = None ->
  (fst (Full.update_properties_tabs w p) = Ok tt /\
   window (run (Full.update_properties_tabs w) p) = window p) /\
  window (run (Basic.update_properties_tabs w) p) = window p.
Proof.
  unfold presented, run, Full.update_properties_tabs,
    Basic.update_properties_tabs, bind, gets, try_except.
  destruct (selection p) as [n|]; [|intros _; repeat split].
  destruct (getCurrentScene w) as [objects|e]; cbn.
  - intros ->. repeat split.
  - intros _. repeat split.
Qed.

Lemma presented_listed (w : World) (p q : Process) l :
  window q = set_object_list_layout l (window p) ->
  presented w q = presented w p.
Proof. intros W. unfold presented, selection. rewrite W. reflexivity. Qed.

Lemma full_refresh_window (w : World) objects (p : Process) :
  getCurrentScene w = Ok objects ->
  window (run (Full.refresh_properties w) p) = window_after_tick w objects p.
Proof.
  intros E.
  destruct (update_object_list_window w objects p E) as [[OF WF] _].
  unfold run in *.
  unfold Full.refresh_properties, try_except, bind.
  destruct (Full.update_object_list w p) as [r p1]. cbn [fst snd] in *.
  subst r.
  pose proof (presented_listed w p p1 _ WF) as Q.
  unfold window_after_tick. cbv zeta. destruct (presented w p) as [obj|].
  - destruct (full_update_properties_tabs_presented w p1 obj Q) as [O W].
    unfold run in W.
    destruct (Full.update_properties_tabs w p1) as [r2 p2].
    cbn [fst snd] in *. subst r2. cbn [snd]. rewrite W, WF. reflexivity.
  - destruct (update_properties_tabs_unresolved w p1 Q) as [[O W] _].
    unfold run in W.
    destruct (Full.update_properties_tabs w p1) as [r2 p2].
    cbn [fst snd] in *. subst r2. cbn [snd]. rewrite W, WF. reflexivity.
Qed.

Lemma basic_refresh_window (w : World) objects (p : Process) :
  getCurrentScene w = Ok objects ->
  layout_of (run (Basic.refresh_properties w) p) = map new_button objects /\
  (forall t,
     tabs_of (run (Basic.refresh_properties w) p) t =
     match presented w p with
     | Some obj => tabs_of p t ++ presenter_rows obj t
     | None => tabs_of p t
     end) /\
  selected_of (run (Basic.refresh_properties w) p) = selected_of p /\
  search_bar (window (run (Basic.refresh_properties w) p)) =
    search_bar (window p).
Proof.
  intros E.
  destruct (update_object_list_window w objects p E) as [_ [OB WB]].
  unfold run in *.
  unfold Basic.refresh_properties, bind.
  destruct (Basic.update_object_list w p) as [r p1]. cbn [fst snd] in *.
  subst r.
  pose proof (presented_listed w p p1 _ WB) as Q.
  destruct (presented w p) as [obj|].
  - destruct (basic_update_properties_tabs_presented w p1 obj Q)
      as (_ & T & _ & S & L & B).
    unfold run, tabs_of, selected_of, layout_of in *.
    rewrite L, S, B, WB. repeat split. intros t. rewrite T, WB. reflexivity.
  - destruct (update_properties_tabs_unresolved w p1 Q) as [_ W].
    unfold run, tabs_of, selected_of, layout_of in *.
    rewrite W, WB. repeat split.
Qed.

(** X9: with the scene available, what a refresh tick leaves in the window
    is determined by the scene, the selection and the rows found.  In both
    scripts [self.object_list_layout] holds one new button per scene
    object, none of them shown, and selection and search bar stay.  In
    [GUI_FULL.py] the tabs hold the presenters' rows for the resolved
    entity, or stay when the selection resolves to no entity.  In
    [gui_basic.py], when the tick returns, the tabs hold the rows found,
    followed by the presenters' rows when the selection resolves to an
    entity. *)
Theorem refresh_determines_window (w : World) objects (p : Process) :
  getCurrentScene w = Ok objects ->
  (window (run (Full.refresh_properties w) p) =
     {| selected_object := selected_object (window p);
        object_list_layout := map new_button objects;
        tabs := match presented w p with
                | Some obj => presenter_rows obj
                | None => tabs (window p)
                end;
        deleted_later := match presented w p with
                         | Some _ => fun _ => O
                         | None => deleted_later (window p)
                         end;
        search_bar := search_bar (window p) |} /\
   displayed (run (Full.refresh_properties w) p) = []) /\
  (layout_of (run (Basic.refresh_properties w) p) = map new_button objects /\
   displayed (run (Basic.refresh_properties w) p) = [] /\
   (forall t,
      tabs_of (run (Basic.refresh_properties w) p) t =
      match presented w p with
      | Some obj => tabs_of p t ++ presenter_rows obj t
      | None => tabs_of p t
      end) /\
   selected_of (run (Basic.refresh_properties w) p) = selected_of p /\
   search_bar (window (run (Basic.refresh_properties w) p)) =
     search_bar (window p)).
Proof.
  intros E. pose proof (full_refresh_window w objects p E) as F.
  destruct (basic_refresh_window w objects p E) as (L & T & S & B).
  split; [split | split; [exact L | split; [|split; [exact T | split]]]].
  - rewrite F. unfold window_after_tick. cbv zeta.
    destruct (presented w p); reflexivity.
  - unfold displayed. rewrite F. unfold window_after_tick. cbv zeta.
    destruct (presented w p); cbn; apply displayed_new_buttons.
  - unfold displayed. unfold layout_of in L. rewrite L.
    apply displayed_new_buttons.
  - exact S.
  - exact B.
Qed.

Lemma refresh_determines_window_witness :
  layout_of (run (Full.refresh_properties world_B) selected_A_full) =
    [{| button_text := "B"; visible := false |}] /\
  tabs_of (run (Basic.refresh_properties world_AB) selected_A_basic)
    LogicSensors = [logic_sensors_row; logic_sensors_row].
Proof.
  split.
  - unfold layout_of.
    rewrite (proj1 (proj1 (refresh_determines_window world_B [objB]
                             selected_A_full eq_refl))).
    reflexivity.
  - destruct (refresh_determines_window world_AB [objA; objB]
                selected_A_basic eq_refl) as [_ (_ & _ & T & _)].
    rewrite T. reflexivity.
Defined.

(** X10: in [GUI_FULL.py] a second refresh tick on an unchanged scene
    leaves the window exactly as the first one left it, whether or not the
    scene can be read and whether or not a presenter raises. *)
Theorem refresh_twice_same_window (w : World) (p : Process) :
  window (run (Full.refresh_properties w)
            (run (Full.refresh_properties w) p)) =
    window (run (Full.refresh_properties w) p).
Proof.
  destruct (getCurrentScene w) as [objects|e] eqn:E.
  - pose proof (full_refresh_window w objects p E) as F.
    rewrite (full_refresh_window w objects _ E).
    assert (S : selected_object (window (run (Full.refresh_properties w) p)) =
                selected_object (window p)).
    { rewrite F. unfold window_after_tick. cbv zeta.
      destruct (presented w p); reflexivity. }
    assert (Q : presented w (run (Full.refresh_properties w) p) =
                presented w p).
    { unfold presented, selection. rewrite S. reflexivity. }
    unfold window_after_tick at 1. cbv zeta. rewrite Q, F.
    unfold window_after_tick. cbv zeta.
    destruct (presented w p); apply window_ext; reflexivity.
  - destruct (refresh_scene_failure w e (run (Full.refresh_properties w) p) E)
      as [(_ & W' & _) _].
    exact W'.
Qed.

(** ** A presenter that cannot start *)

(** X11: when the selection resolves to an entity whose physics id cannot
    be read, no presenter adds a row.  [GUI_FULL.py] has already taken the
    rows out of the tabs: every tab is left without rows, the exception is
    reported once and the callback ends normally.  [gui_basic.py] ends
    with the exception, and when it does every tab still holds the rows
    found, all of them marked for deletion. *)
Theorem failed_presenter_tabs (w : World) (p : Process) obj (e : exn) :
  presented w p = Some obj ->
  getPhysicsId obj = Raise e ->
  (fst (Full.update_properties_tabs w p) = Ok tt /\
   (forall t, tabs (window (run (Full.update_properties_tabs w) p)) t = []) /\
   reported_of (skipn (List.length (events p))
                  (events (run (Full.update_properties_tabs w) p))) = [e]) /\
  (fst (Basic.update_properties_tabs w p) = Raise e /\
   (forall t,
      tabs (window (run (Basic.update_properties_tabs w) p)) t =
      tabs (window p) t) /\
   (forall t,
      deleted_later (window (run (Basic.update_properties_tabs w) p)) t =
      List.length (tabs (window p) t))).
Proof.
  intros H E. unfold presented in H.
  unfold run, Full.update_properties_tabs, Basic.update_properties_tabs,
    try_except, bind, gets.
  destruct (selection p) as [n|]; [|discriminate H].
  destruct (getCurrentScene w) as [objects|e']; [|discriminate H].
  cbn [lift ret]. rewrite H.
  unfold populate_tabs, populate_physics_tab, bind. rewrite E. cbn.
  assert (K : forall evs more : list event,
             skipn (List.length evs) (evs ++ more) = more).
  { intros evs more. induction evs; [reflexivity | assumption]. }
  rewrite <- !app_assoc, K. repeat split.
Qed.

Lemma failed_presenter_tabs_witness :
  tabs (window (run (Full.update_properties_tabs world_freed)
                  selected_A_full)) Animations = [] /\
  fst (Basic.update_properties_tabs world_freed selected_A_basic) =
    Raise (mk_exn SystemError "object freed") /\
  tabs (window (run (Basic.update_properties_tabs world_freed)
                  selected_A_basic)) Animations = [animations_row].
Proof.
  destruct (failed_presenter_tabs world_freed selected_A_full
              objA_freed (mk_exn SystemError "object freed")
              eq_refl eq_refl) as [(_ & TF & _) _].
  destruct (failed_presenter_tabs world_freed selected_A_basic
              objA_freed (mk_exn SystemError "object freed")
              eq_refl eq_refl) as [_ (RB & TB & _)].
  split; [apply TF | split; [exact RB | rewrite TB; reflexivity]].
Defined.

(** ** Clicking an entry *)

(** X12: a click on an entry whose object is no longer in the scene
    records the name as the selection and leaves the rows, the list and
    the search bar as they were; no error is shown. *)
Theorem select_object_without_entity (w : World) objects (n : string)
        (p : Process) :
  getCurrentScene w = Ok objects ->
  objects_get objects n = None ->
  (fst (Full.select_object w n p) = Ok tt /\
   window (run (Full.select_object w n) p) =
     set_selected_object (Some n) (window p) /\
   reported_of (events (run (Full.select_object w n) p)) =
     reported_of (events p)) /\
  (fst (Basic.select_object w n p) = Ok tt /\
   window (run (Basic.select_object w n) p) =
     set_selected_object (Some n) (window p)).
Proof.
  intros E N.
  unfold run, Full.select_object, Basic.select_object,
    Full.update_properties_tabs, Basic.update_properties_tabs,
    try_except, bind, gets, modify, emit, selection.
  cbn. destruct (String.eqb n ""); cbn;
    [| rewrite E; cbn; rewrite N; cbn];
    rewrite reported_of_app; cbn; rewrite app_nil_r; repeat split.
Qed.

Lemma select_object_without_entity_witness :
  tabs (window (run (Full.select_object world_B "A") selected_A_full)) =
    tabs (window selected_A_full) /\
  selected_object (window (run (Basic.select_object world_B "ghost")
                             selected_A_basic)) = Some "ghost"%string.
Proof.
  split.
  - rewrite (proj1 (proj2 (proj1
      (select_object_without_entity world_B [objB] "A" selected_A_full
         eq_refl eq_refl)))).
    reflexivity.
  - rewrite (proj2 (proj2
      (select_object_without_entity world_B [objB] "ghost" selected_A_basic
         eq_refl eq_refl))).
    reflexivity.
Defined.

(** ** Playback commands *)

(** X13: [set_fps] forwards whatever [float] accepts: for every text that
    parses to [x], including NaN, infinities, zero and negative numbers,
    exactly one [setLogicTicRate(x)] reaches the engine and no error is
    reported; the window is not touched. *)
Theorem set_fps_forwards_parsed (fps_input : string) (x : float) (p : Process) :
  float_of_string fps_input = Ok x ->
  (fst (Full.set_fps fps_input p) = Ok tt /\
   bge (run (Full.set_fps fps_input) p) =
     bge p ++ [setLogicTicRate (VFloat x)] /\
   window (run (Full.set_fps fps_input) p) = window p /\
   events (run (Full.set_fps fps_input) p) =
     events p ++ [LogInfo (Cat (Lit "FPS set to ") (Str (VFloat x)))]) /\
  (fst (Basic.set_fps fps_input p) = Ok tt /\
   bge (run (Basic.set_fps fps_input) p) =
     bge p ++ [setLogicTicRate (VFloat x)] /\
   window (run (Basic.set_fps fps_input) p) = window p /\
   events (run (Basic.set_fps fps_input) p) =
     events p ++ [Stdout (Cat (Lit "FPS set to ") (Str (VFloat x)))]).
Proof.
  intros E.
  unfold run, Full.set_fps, Basic.set_fps, try_except, bind. rewrite E.
  cbn. repeat split.
Qed.

Lemma set_fps_forwards_parsed_witness :
  bge (run (Full.set_fps "nan") fresh_process) =
    [setLogicTicRate (VFloat S754_nan)] /\
  bge (run (Basic.set_fps " -0 ") fresh_process) =
    [setLogicTicRate (VFloat (S754_zero true))].
Proof.
  split.
  - apply (set_fps_forwards_parsed "nan" S754_nan fresh_process eq_refl).
  - apply (set_fps_forwards_parsed " -0 " (S754_zero true) fresh_process
             eq_refl).
Defined.

(** X14: [set_game_speed] behaves as [set_fps] does: a text that does not
    parse leads to no engine call and to one error report (a dialog in
    [GUI_FULL.py], a printed line in [gui_basic.py]); a text that parses
    to [x] leads to exactly one [setTimeScale(x)]. *)
Theorem set_game_speed_validates (speed_input : string) (p : Process) :
  (forall e,
     float_of_string speed_input = Raise e ->
     fst (Full.set_game_speed speed_input p) = Ok tt /\
     bge (run (Full.set_game_speed speed_input) p) = bge p /\
     events (run (Full.set_game_speed speed_input) p) =
       events p ++ [Raised e;
                    Dialog (Lit "Invalid game speed value.") (Some e);
                    LogError (Lit "Invalid game speed value.") (Some e)] /\
     fst (Basic.set_game_speed speed_input p) = Ok tt /\
     bge (run (Basic.set_game_speed speed_input) p) = bge p /\
     events (run (Basic.set_game_speed speed_input) p) =
       events p ++ [Raised e; Stdout (Lit "Invalid game speed value.")]) /\
  (forall x,
     float_of_string speed_input = Ok x ->
     fst (Full.set_game_speed speed_input p) = Ok tt /\
     bge (run (Full.set_game_speed speed_input) p) =
       bge p ++ [setTimeScale (VFloat x)] /\
     reported_of (events (run (Full.set_game_speed speed_input) p)) =
       reported_of (events p) /\
     fst (Basic.set_game_speed speed_input p) = Ok tt /\
     bge (run (Basic.set_game_speed speed_input) p) =
       bge p ++ [setTimeScale (VFloat x)]).
Proof.
  split.
  - intros e E. pose proof (float_of_string_error _ _ E) as ->.
    unfold run, Full.set_game_speed, Basic.set_game_speed, try_except, bind.
    rewrite E. cbn. rewrite <- !app_assoc. repeat split.
  - intros x E.
    unfold run, Full.set_game_speed, Basic.set_game_speed, try_except, bind.
    rewrite E. cbn. rewrite reported_of_app. cbn. rewrite app_nil_r.
    repeat split.
Qed.

Lemma set_game_speed_validates_witness :
  bge (run (Full.set_game_speed "fast") fresh_process) = [] /\
  bge (run (Basic.set_game_speed "1.5") fresh_process) =
    [setTimeScale (VFloat f_1_5)].
Proof.
  destruct (set_game_speed_validates "fast" fresh_process) as [R _].
  destruct (set_game_speed_validates "1.5" fresh_process) as [_ F].
  split.
  - apply (R (mk_exn ValueError "could not convert string to float") eq_refl).
  - apply (F f_1_5 eq_refl).
Defined.

(** X15: pause and play are not a toggle with memory: after a speed [x]
    was set, pausing and playing forwards [setTimeScale(0)] and then
    [setTimeScale(1)], so the game resumes at speed [1] and not at [x];
    stepping forwards one [nextFrame]; the physics-visualization button
    forwards nothing. *)
Theorem play_resumes_at_speed_one (speed_input : string) (x : float)
        (p : Process) :
  float_of_string speed_input = Ok x ->
  bge (run Full.play_game
         (run Full.pause_game (run (Full.set_game_speed speed_input) p))) =
    bge p ++ [setTimeScale (VFloat x); setTimeScale (VInt 0);
              setTimeScale (VInt 1)] /\
  bge (run Basic.play_game
         (run Basic.pause_game (run (Basic.set_game_speed speed_input) p))) =
    bge p ++ [setTimeScale (VFloat x); setTimeScale (VInt 0);
              setTimeScale (VInt 1)] /\
  bge (run Full.step_frame p) = bge p ++ [nextFrame] /\
  bge (run Basic.step_frame p) = bge p ++ [nextFrame] /\
  bge (run Full.toggle_physics_visualization p) = bge p /\
  bge (run Basic.toggle_physics_visualization p) = bge p.
Proof.
  intros E.
  unfold run, Full.play_game, Full.pause_game, Full.set_game_speed,
    Basic.play_game, Basic.pause_game, Basic.set_game_speed, try_except, bind.
  rewrite E. cbn. rewrite <- !app_assoc. repeat split.
Qed.

Lemma play_resumes_at_speed_one_witness :
  last (bge (run Full.play_game
               (run Full.pause_game
                  (run (Full.set_game_speed "1.5") fresh_process))))
       nextFrame = setTimeScale (VInt 1).
Proof.
  rewrite (proj1 (play_resumes_at_speed_one "1.5" f_1_5 fresh_process eq_refl)).
  reflexivity.
Defined.

(** ** The mouse flag *)

(** X16: while the global is bound, two toggles in a row bring the flag
    back to the truth value it had (as a boolean) and forward first the
    negated value, then the original one. *)
Theorem toggle_mouse_twice (p : Process) (v : value) :
  mouse_visible p = Some v ->
  (mouse_visible (run Full.toggle_mouse (run Full.toggle_mouse p)) =
     Some (VBool (truthy v)) /\
   bge (run Full.toggle_mouse (run Full.toggle_mouse p)) =
     bge p ++ [showMouse (VBool (negb (truthy v)));
               showMouse (VBool (truthy v))]) /\
  (mouse_visible (run Basic.toggle_mouse (run Basic.toggle_mouse p)) =
     Some (VBool (truthy v)) /\
   bge (run Basic.toggle_mouse (run Basic.toggle_mouse p)) =
     bge p ++ [showMouse (VBool (negb (truthy v)));
               showMouse (VBool (truthy v))]).
Proof.
  intros E.
  unfold run, Full.toggle_mouse, Basic.toggle_mouse, try_except, bind, gets.
  rewrite E. cbn. rewrite negb_involutive, <- !app_assoc. repeat split.
Qed.

Lemma toggle_mouse_twice_witness :
  mouse_visible (run Full.toggle_mouse
                   (run Full.toggle_mouse (mouse_bound (VInt 7)))) =
    Some (VBool true).
Proof.
  apply (toggle_mouse_twice (mouse_bound (VInt 7)) (VInt 7) eq_refl).
Defined.

(** X17: neither script ever binds the global, so from a process in which
    it is unbound no number of toggles forwards anything: in [GUI_FULL.py]
    each of [n] toggles shows one error dialog and the flag stays unbound;
    in [gui_basic.py] a toggle ends with [NameError] and changes nothing
    but the trace. *)
Theorem toggle_mouse_never_recovers (n : nat) (p : Process) :
  mouse_visible p = None ->
  (fst (times n Full.toggle_mouse p) = Ok tt /\
   mouse_visible (run (times n Full.toggle_mouse) p) = None /\
   bge (run (times n Full.toggle_mouse) p) = bge p /\
   window (run (times n Full.toggle_mouse) p) = window p /\
   reported_of (events (run (times n Full.toggle_mouse) p)) =
     reported_of (events p) ++ repeat unbound_mouse_visible n) /\
  Basic.toggle_mouse p =
    (Raise unbound_mouse_visible, add_event (Raised unbound_mouse_visible) p).
Proof.
  intros E. split.
  - revert p E. induction n as [|n IH]; intros p E.
    + cbn. rewrite app_nil_r. repeat split. exact E.
    + set (p1 := add_event
                   (LogError (Lit "Error toggling mouse visibility.")
                             (Some unbound_mouse_visible))
                   (add_event
                      (Dialog (Lit "Error toggling mouse visibility.")
                              (Some unbound_mouse_visible))
                      (add_event (Raised unbound_mouse_visible) p))).
      assert (T : Full.toggle_mouse p = (Ok tt, p1)).
      { unfold Full.toggle_mouse, try_except, bind, gets. rewrite E.
        reflexivity. }
      destruct (IH p1 E) as (O & M & B & W & R).
      unfold run in *. cbn [times]. unfold bind. rewrite T.
      split; [exact O|]. split; [exact M|]. split; [exact B|].
      split; [exact W|]. rewrite R. unfold p1. cbn [events add_event].
      rewrite !reported_of_app. cbn. rewrite <- !app_assoc. reflexivity.
  - unfold Basic.toggle_mouse, bind, gets. rewrite E. reflexivity.
Qed.

Lemma toggle_mouse_never_recovers_witness :
  bge (run (times 3 Full.toggle_mouse) fresh_process) = [] /\
  List.length (reported_of (events (run (times 3 Full.toggle_mouse)
                                      fresh_process))) = 3%nat.
Proof.
  destruct (toggle_mouse_never_recovers 3 fresh_process eq_refl)
    as [(_ & _ & B & _ & R) _].
  split; [exact B | rewrite R; reflexivity].
Defined.

(** ** No callback of [GUI_FULL.py] raises *)

Lemma full_set_ok (text_input : string) (k : float -> M unit) message
      (p : Process) :
  (forall x q, fst (k x q) = Ok tt) ->
  fst (try_except
         (x <- lift (float_of_string text_input) ;; k x)
         is_ValueError
         (fun e => Full.show_error message (Some e)) p) = Ok tt.
Proof.
  intros H. unfold try_except, bind.
  destruct (float_of_string text_input) as [x|e] eqn:E; cbn [lift ret raise].
  - specialize (H x p). destruct (k x p) as [[[]|e] q];
      [reflexivity | discriminate H].
  - rewrite (float_of_string_error _ _ E). reflexivity.
Qed.

(** X18: every callback of [GUI_FULL.py] ends normally from every state
    and for every scene and input (the dialog and the engine calls being
    taken not to raise): a click on an entry, an edit of the search bar,
    the timer tick, the two text commands, pause, play, step and the two
    toggles.  For a click, as for a tick, the exceptions shown by
    [show_error] are exactly the exceptions raised. *)
Theorem full_callbacks_end_normally (w : World) (n text_input : string)
        (p : Process) :
  fst (Full.select_object w n p) = Ok tt /\
  fst (Full.edit_search text_input p) = Ok tt /\
  fst (Full.refresh_properties w p) = Ok tt /\
  fst (Full.set_fps text_input p) = Ok tt /\
  fst (Full.set_game_speed text_input p) = Ok tt /\
  fst (Full.pause_game p) = Ok tt /\
  fst (Full.play_game p) = Ok tt /\
  fst (Full.step_frame p) = Ok tt /\
  fst (Full.toggle_mouse p) = Ok tt /\
  fst (Full.toggle_physics_visualization p) = Ok tt /\
  exists new,
    events (run (Full.select_object w n) p) = events p ++ new /\
    reported_of new = raised_of new.
Proof.
  assert (U : forall q, fst (Full.update_properties_tabs w q) = Ok tt).
  { intros q. unfold Full.update_properties_tabs, bind, gets.
    destruct (selection q); [apply try_show_error_ok | reflexivity]. }
  assert (S : fst (Full.select_object w n p) = Ok tt) by apply U.
  split; [exact S|].
  split; [reflexivity|].
  split; [apply try_show_error_ok|].
  split; [apply full_set_ok; reflexivity|].
  split; [apply full_set_ok; reflexivity|].
  do 5 (split; [apply try_show_error_ok|]).
  assert (C : contained (Full.select_object w n))
    by (unfold Full.select_object; contain).
  destruct (C p) as (new & E & B). rewrite S in B.
  exists new. split; [exact E | symmetry; exact B].
Qed.

(** ** Values without floats *)

(** X19: a value in which [truncate] can reach no float (scalars other
    than floats, strings, tuples whatever they hold, and lists of such
    values, nested to any depth) is returned unchanged at every
    precision. *)
Theorem truncate_float_free (v : value) (digits : nat) :
  float_free v = true -> truncate v digits = v.
Proof.
  induction v as [ |b|n|x|s|l IH|l IH|l|l] using value_nested_ind;
    cbn; intros H; try reflexivity; try discriminate H.
  f_equal. induction IH as [|v l Hv _ IHl]; cbn in *; [reflexivity|].
  apply andb_true_iff in H. destruct H as [Hv' Hl].
  rewrite (Hv Hv'), (IHl Hl). reflexivity.
Qed.

Lemma truncate_float_free_witness :
  truncate (VList [VStr "a"; VInt 1; VList [VBool true; VNone];
                   VTuple [VFloat f_0_12345]]) 3 =
  VList [VStr "a"; VInt 1; VList [VBool true; VNone];
         VTuple [VFloat f_0_12345]].
Proof. apply truncate_float_free. reflexivity. Defined.

(** ** Floats that [round] leaves alone *)

(** [2^max(0,x)] and [2^max(0,-x)] are numerator and denominator of
    [2^x]; the identity below is [2^(a+b) = 2^a * 2^b] on them. *)
Lemma pow2_split (a b : Z) :
  2 ^ Z.max 0 (a + b) * 2 ^ Z.max 0 (- a) * 2 ^ Z.max 0 (- b) =
  2 ^ Z.max 0 (- (a + b)) * 2 ^ Z.max 0 a * 2 ^ Z.max 0 b.
Proof.
  rewrite <- !Z.pow_add_r by lia. f_equal. lia.
Qed.

Lemma pow2_pos (x : Z) : 0 < 2 ^ Z.max 0 x.
Proof. apply Z.pow_pos_nonneg; lia. Qed.

Lemma flog2_unique_any (p q f : Z) :
  0 < p -> 0 < q ->
  den2 f q <= num2 f p -> num2 (f + 1) p < den2 (f + 1) q ->
  flog2 p q = f.
Proof.
  intros Hp Hq L U. unfold num2, den2 in L, U.
  destruct (Z.log2_spec p Hp) as [P1 P2], (Z.log2_spec q Hq) as [Q1 Q2].
  pose proof (Z.log2_nonneg q) as Q0. pose proof (Z.log2_nonneg p) as P0.
  pose proof (pow2_pos f) as S1. pose proof (pow2_pos (- f)) as S2.
  pose proof (pow2_pos (f + 1)) as S3. pose proof (pow2_pos (- (f + 1))) as S4.
  assert (A : Z.log2 q + f <= Z.log2 p).
  { assert (X : 2 ^ (Z.log2 q + Z.max 0 f) <
                2 ^ (Z.succ (Z.log2 p) + Z.max 0 (- f))).
    { rewrite !Z.pow_add_r by lia. nia. }
    apply Z.pow_lt_mono_r_iff in X; lia. }
  assert (B : Z.log2 p <= Z.log2 q + f + 1).
  { assert (X : 2 ^ (Z.log2 p + Z.max 0 (- (f + 1))) <
                2 ^ (Z.succ (Z.log2 q) + Z.max 0 (f + 1))).
    { rewrite !Z.pow_add_r by lia. nia. }
    apply Z.pow_lt_mono_r_iff in X; lia. }
  unfold flog2.
  assert (Z.log2 p - Z.log2 q = f \/ Z.log2 p - Z.log2 q = f + 1) as [E|E]
    by lia; rewrite E; unfold num2, den2.
  - destruct (Z.leb_spec (q * 2 ^ Z.max 0 f) (p * 2 ^ Z.max 0 (- f))); lia.
  - destruct (Z.leb_spec (q * 2 ^ Z.max 0 (f + 1))
                (p * 2 ^ Z.max 0 (- (f + 1)))); lia.
Qed.

(** A quotient that is a normalised float is converted to that float. *)
Lemma nearest_float_exact (s : bool) (m : positive) (e p q : Z) :
  2 ^ (prec - 1) <= Zpos m < 2 ^ prec ->
  emin prec emax <= e <= emax - prec ->
  0 < q ->
  num2 e p = Zpos m * den2 e q ->
  nearest_float s p q = S754_finite s m e.
Proof.
  unfold prec, emax, emin. change (2 ^ (53 - 1)) with 4503599627370496.
  change (2 ^ 53) with 9007199254740992. intros Hm He Hq X.
  pose proof (pow2_pos e) as S1. pose proof (pow2_pos (- e)) as S2.
  assert (Hp : 0 < p) by (unfold num2, den2 in X; nia).
  assert (F : flog2 p q = e + 52).
  { apply flog2_unique_any; try assumption; unfold num2, den2 in *.
    - pose proof (pow2_split e 52) as I.
      pose proof (pow2_pos (e + 52)) as S3.
      pose proof (pow2_pos (- (e + 52))) as S4.
      change (2 ^ Z.max 0 52) with 4503599627370496 in I.
      change (2 ^ Z.max 0 (Z.opp 52)) with 1 in I.
      apply (Z.mul_le_mono_pos_r _ _ (2 ^ Z.max 0 (- e))); [exact S2|].
      replace (p * 2 ^ Z.max 0 (- (e + 52)) * 2 ^ Z.max 0 (- e))
        with (2 ^ Z.max 0 (- (e + 52)) * (p * 2 ^ Z.max 0 (- e))) by ring.
      rewrite X.
      replace (q * 2 ^ Z.max 0 (e + 52) * 2 ^ Z.max 0 (- e))
        with (q * (2 ^ Z.max 0 (e + 52) * 2 ^ Z.max 0 (- e) * 1)) by ring.
      rewrite I. nia.
    - replace (e + 52 + 1) with (e + 53) by lia.
      pose proof (pow2_split e 53) as I.
      pose proof (pow2_pos (e + 53)) as S3.
      pose proof (pow2_pos (- (e + 53))) as S4.
      change (2 ^ Z.max 0 53) with 9007199254740992 in I.
      change (2 ^ Z.max 0 (Z.opp 53)) with 1 in I.
      apply (Z.mul_lt_mono_pos_r (2 ^ Z.max 0 (- e))); [exact S2|].
      replace (p * 2 ^ Z.max 0 (- (e + 53)) * 2 ^ Z.max 0 (- e))
        with (2 ^ Z.max 0 (- (e + 53)) * (p * 2 ^ Z.max 0 (- e))) by ring.
      rewrite X.
      replace (q * 2 ^ Z.max 0 (e + 53) * 2 ^ Z.max 0 (- e))
        with (q * (2 ^ Z.max 0 (e + 53) * 2 ^ Z.max 0 (- e) * 1)) by ring.
      rewrite I. nia. }
  assert (D : 0 < den2 e q) by (unfold den2; nia).
  unfold nearest_float. rewrite F. unfold prec, emax, emin.
  replace (Z.max (e + 52 - (53 - 1)) (3 - 1024 - 53)) with e by lia.
  rewrite X, (rne_div_unique _ _ D (Zpos m)) by nia.
  destruct (Z.eqb_spec (Z.pos m) (2 ^ 53)) as [C|_].
  { change (2 ^ 53) with 9007199254740992 in C. lia. }
  destruct (Z.leb_spec e (1024 - 53)); [reflexivity | lia].
Qed.

(** X20: [round(x, digits)] returns [x] itself for every normalised float
    [x] that has at most [digits] decimals, that is, for which
    [x * 10^digits] is an integer; so the formatter leaves every
    integer-valued float and every multiple of [1/8] unchanged at its
    default precision. *)
Theorem truncate_keeps_short_decimals (s : bool) (m : positive) (e : Z)
        (digits : nat) :
  2 ^ (prec - 1) <= Zpos m < 2 ^ prec ->
  emin prec emax <= e <= emax - prec ->
  num2 (- e) (Zpos m * 10 ^ Z.of_nat digits) mod den2 (- e) 1 = 0 ->
  truncate (VFloat (S754_finite s m e)) digits = VFloat (S754_finite s m e).
Proof.
  intros Hm He Hd. cbn [truncate]. f_equal. unfold float_round.
  destruct (NDIGITS_MAX <? Z.of_nat digits); [reflexivity|].
  pose proof (pow2_pos e) as S1. pose proof (pow2_pos (- e)) as S2.
  assert (T : 0 < 10 ^ Z.of_nat digits) by (apply Z.pow_pos_nonneg; lia).
  assert (D : 0 < den2 (- e) 1) by (unfold den2; lia).
  set (a := num2 (- e) (Zpos m * 10 ^ Z.of_nat digits)) in *.
  assert (K : decimal_round m e digits = a / den2 (- e) 1).
  { unfold decimal_round. fold a. apply rne_div_unique; [exact D|].
    pose proof (Z.div_mod a (den2 (- e) 1) ltac:(lia)) as Q.
    rewrite Hd in Q. nia. }
  pose proof (Z.div_mod a (den2 (- e) 1) ltac:(lia)) as Q. rewrite Hd in Q.
  rewrite K. set (k := a / den2 (- e) 1) in *.
  assert (X : num2 e k = Zpos m * den2 e (10 ^ Z.of_nat digits)).
  { unfold a, num2, den2 in *. rewrite Z.opp_involutive in *.
    apply (Z.mul_cancel_r _ _ (2 ^ Z.max 0 (- e))); [lia|].
    transitivity (Zpos m * 10 ^ Z.of_nat digits * 2 ^ Z.max 0 e *
                  2 ^ Z.max 0 (- e)); [|ring].
    rewrite Q. ring. }
  assert (Kpos : 0 < k).
  { unfold a, num2, den2 in *. rewrite Z.opp_involutive in *.
    unfold prec in Hm. change (2 ^ (53 - 1)) with 4503599627370496 in Hm.
    nia. }
  destruct (Z.eqb_spec k 0); [lia|].
  apply nearest_float_exact; assumption.
Qed.

Lemma truncate_keeps_short_decimals_witness :
  truncate (VFloat (S754_finite false 8444249301319680 (-47))) 3 =
    VFloat (S754_finite false 8444249301319680 (-47)) /\
  truncate (VFloat f_1_5) 1 = VFloat f_1_5.
Proof.
  split.
  - apply truncate_keeps_short_decimals;
      [ change (2 ^ (prec - 1)) with 4503599627370496;
        change (2 ^ prec) with 9007199254740992; lia
      | change (emin prec emax) with (-1074);
        change (emax - prec) with 971; lia
      | vm_compute; reflexivity ].
  - apply truncate_keeps_short_decimals;
      [ change (2 ^ (prec - 1)) with 4503599627370496;
        change (2 ^ prec) with 9007199254740992; lia
      | change (emin prec emax) with (-1074);
        change (emax - prec) with 971; lia
      | vm_compute; reflexivity ].
Defined.

(** ** Inspection and commands keep apart *)

Ltac preserve_all :=
  unfold Full.select_object, Basic.select_object, Full.edit_search,
    Basic.edit_search, Full.set_game_speed, Basic.set_game_speed,
    Full.pause_game, Basic.pause_game, Full.play_game, Basic.play_game,
    Full.step_frame, Basic.step_frame, Full.toggle_physics_visualization,
    Basic.toggle_physics_visualization;
  preserve.

(** X21: inspecting never drives the simulation, and driving it never
    disturbs the inspector: a click on an entry, an edit of the search bar
    and a refresh tick make no call to the engine and leave the mouse flag
    alone, in every scene and also when they raise; the playback commands
    leave the window (selection, object list, rows, search text) exactly
    as it was, for every input. *)
Theorem inspection_and_commands_are_separate
        (w : World) (n text_input : string) (p : Process) :
  (bge (run (Full.select_object w n) p) = bge p /\
   bge (run (Full.edit_search text_input) p) = bge p /\
   bge (run (Full.refresh_properties w) p) = bge p /\
   bge (run (Basic.select_object w n) p) = bge p /\
   bge (run (Basic.edit_search text_input) p) = bge p /\
   bge (run (Basic.refresh_properties w) p) = bge p) /\
  (mouse_visible (run (Full.select_object w n) p) = mouse_visible p /\
   mouse_visible (run (Full.refresh_properties w) p) = mouse_visible p /\
   mouse_visible (run (Basic.select_object w n) p) = mouse_visible p /\
   mouse_visible (run (Basic.refresh_properties w) p) = mouse_visible p) /\
  (window (run (Full.set_fps text_input) p) = window p /\
   window (run (Full.set_game_speed text_input) p) = window p /\
   window (run Full.pause_game p) = window p /\
   window (run Full.play_game p) = window p /\
   window (run Full.step_frame p) = window p /\
   window (run Full.toggle_mouse p) = window p /\
   window (run Full.toggle_physics_visualization p) = window p) /\
  (window (run (Basic.set_fps text_input) p) = window p /\
   window (run (Basic.set_game_speed text_input) p) = window p /\
   window (run Basic.pause_game p) = window p /\
   window (run Basic.play_game p) = window p /\
   window (run Basic.step_frame p) = window p /\
   window (run Basic.toggle_mouse p) = window p /\
   window (run Basic.toggle_physics_visualization p) = window p).
Proof.
  assert (E : forall c : M unit, preserves bge c -> bge (run c p) = bge p)
    by (intros c H; exact (H p)).
  assert (G : forall c : M unit,
             preserves mouse_visible c ->
             mouse_visible (run c p) = mouse_visible p)
    by (intros c H; exact (H p)).
  assert (W : forall c : M unit, preserves window c -> window (run c p) = window p)
    by (intros c H; exact (H p)).
  split; [|split; [|split]].
  - repeat split; apply E; preserve_all.
  - repeat split; apply G; preserve_all.
  - repeat split; apply W; preserve_all.
  - repeat split; apply W; preserve_all.
Qed.
